(** * GitlabCIClient: the proxy client of the GitLab plugin

    A shallow embedding of [src/api/GitlabCIClient.ts] and of the part of the
    JavaScript platform it calls, followed by the properties of the client.

    Conventions of the embedding.
    - A JavaScript string is a [string], read as the UTF-8 bytes of a
      well-formed text.  The prefixes the client tests are ASCII, so
      [startsWith] and [slice] cut at the same place in both readings.
    - [null] and a missing optional argument are [None].
    - A response body is read at the type the source casts it to
      ([(await response.json()) as T]); the reader is the platform's and is a
      parameter ([Json T]).
    - An [async] method is a function of the history of the requests made so
      far; it returns an outcome and the extended history.  The discovery
      service and the network answer by history, so they may answer the same
      request differently at different times. *)

From Stdlib Require Import ZArith Ascii String.
From stdpp Require Import gmap strings list pretty.

Open Scope Z_scope.

(** ** JavaScript values *)

(** The values a decoded JSON body and an optional argument can hold.
    Numbers are the integers (all the client ever sends is a page size); a
    JavaScript number holds an integer exactly below 2^53 in magnitude (see
    [safe_integer]). *)
#[warnings="-register-all"]
Inductive value : Type :=
| VUndefined
| VNull
| VBool (b : bool)
| VNum (n : Z)
| VStr (s : string)
| VArr (l : list value)
| VObj (o : gmap string value).

(** A plain object ([Record<string, unknown>], and the record types of
    [components/types], which the client only reads and extends by name). *)
Abbreviation object := (gmap string value).

(** [o.k]: the property, [undefined] when the object has none. *)
Definition get (o : object) (k : string) : value := default VUndefined (o !! k).

(** [o?.k] on a value that may be [null]. *)
Definition opt_get (o : option object) (k : string) : value :=
  match o with
  | Some o => get o k
  | None => VUndefined
  end.

(** [o.k = v] *)
Definition set (o : object) (k : string) (v : value) : object := <[k := v]> o.

(** ** Strings *)

(** [s.startsWith(p)] *)
Definition startsWith (s p : string) : bool := String.prefix p s.

(** [s.slice(n)], for [0 <= n] *)
Fixpoint slice (n : nat) (s : string) : string :=
  match n, s with
  | O, _ => s
  | S n, String _ s => slice n s
  | S _, EmptyString => EmptyString
  end.

(** [s.endsWith(c)] for a one-character [c] *)
Fixpoint endsWith (s : string) (c : ascii) : bool :=
  match s with
  | EmptyString => false
  | String a EmptyString => Ascii.eqb a c
  | String _ s => endsWith s c
  end.

(** [Array.prototype.join] on strings *)
Definition join (sep : string) (l : list string) : string := String.concat sep l.

(** ECMAScript [ToString], as string concatenation, template literals and
    the [USVString] conversion apply it.  An array prints its elements
    separated by commas, [null] and [undefined] elements as nothing.  A
    number is printed digit by digit, which is its JavaScript text for a
    safe integer only: beyond 2^53 a number is rounded, and from 10^21 on it
    is printed with an exponent ([1e+21]).  What is said below of the text
    of a value is said of [printable] values. *)
Fixpoint ToString (v : value) : string :=
  match v with
  | VUndefined => "undefined"
  | VNull => "null"
  | VBool true => "true"
  | VBool false => "false"
  | VNum n => pretty n
  | VStr s => s
  | VArr l =>
      join "," (List.map (fun e => match e with
                                   | VUndefined | VNull => ""
                                   | _ => ToString e
                                   end) l)
  | VObj _ => "[object Object]"
  end.

(** [Number.isSafeInteger]: the integers a number holds exactly, whose text
    is all their digits. *)
Definition safe_integer (n : Z) : bool := (- 2 ^ 53 <? n) && (n <? 2 ^ 53).

(** The values whose numbers, at any depth of arrays, are safe integers:
    those whose JavaScript text [ToString] gives. *)
Fixpoint printable (v : value) : bool :=
  match v with
  | VNum n => safe_integer n
  | VArr l => forallb printable l
  | _ => true
  end.

(** An optional string argument used in a concatenation or a template. *)
Definition str (x : option string) : string :=
  match x with
  | Some s => s
  | None => ToString VUndefined
  end.

(** ** Percent-encoding *)

Fixpoint char_in (c : ascii) (s : string) : bool :=
  match s with
  | EmptyString => false
  | String a s => Ascii.eqb a c || char_in c s
  end.

Definition is_alnum (c : ascii) : bool :=
  let n := N_of_ascii c in
  ((48 <=? n) && (n <=? 57) || (65 <=? n) && (n <=? 90)
   || (97 <=? n) && (n <=? 122))%N.

Definition hexdigit (n : N) : ascii :=
  if (n <? 10)%N then ascii_of_N (48 + n) else ascii_of_N (55 + n).

(** [%XX], upper-case hexadecimal *)
Definition percent_encode_byte (c : ascii) : string :=
  String "%" (String (hexdigit (N_of_ascii c / 16))
                     (String (hexdigit (N_of_ascii c mod 16)) EmptyString)).

Fixpoint percent_encode (unescaped : ascii -> bool) (s : string) : string :=
  match s with
  | EmptyString => EmptyString
  | String c s =>
      (if unescaped c then String c EmptyString else percent_encode_byte c)
        +:+ percent_encode unescaped s
  end.

(** [encodeURI]: letters, digits and [; / ? : @ & = + $ , - _ . ! ~ * ' ( ) #]
    stay. *)
Definition encodeURI (s : string) : string :=
  percent_encode (fun c => is_alnum c || char_in c ";/?:@&=+$,-_.!~*'()#") s.

(** [encodeURIComponent]: letters, digits and [- _ . ! ~ * ' ( )] stay. *)
Definition encodeURIComponent (s : string) : string :=
  percent_encode (fun c => is_alnum c || char_in c "-_.!~*'()") s.

(** ** URLSearchParams

    The platform class, after the URL Standard.  Built from a record, it
    holds one pair per own property, in property order, each value turned
    into a string by [ToString]: nothing is left out, and [undefined]
    becomes the text [undefined].  A query object is given here by the list
    of its properties in that order. *)

Definition URLSearchParams (init : list (string * value))
  : list (string * string) :=
  List.map (fun kv => (kv.1, ToString kv.2)) init.

(** The [application/x-www-form-urlencoded] byte serializer: letters, digits
    and [* - . _] stay, a space becomes [+]. *)
Definition urlencode_byte (c : ascii) : string :=
  if Ascii.eqb c " " then "+"
  else if is_alnum c || char_in c "*-._" then String c EmptyString
  else percent_encode_byte c.

Fixpoint urlencode (s : string) : string :=
  match s with
  | EmptyString => EmptyString
  | String c s => urlencode_byte c +:+ urlencode s
  end.

Definition urlencoded_pair (kv : string * string) : string :=
  urlencode kv.1 +:+ "=" +:+ urlencode kv.2.

(** [params.toString()] *)
Definition toString (params : list (string * string)) : string :=
  join "&" (List.map urlencoded_pair params).

(** ** Asynchronous computations *)

(** What a collaborator of the client (the discovery service, [fetch], the
    body reader) answers: a value, or a failure with its reason. *)
Inductive reply (A : Type) : Type :=
| Resolved (a : A)
| Failed (reason : string).
Arguments Resolved {A} a.
Arguments Failed {A} reason.

(** What a rejected promise carries.  The failure of a collaborator is kept
    apart from an [Error] object the client itself creates: they are
    different objects even when their messages agree. *)
Inductive exn : Type :=
| Rejection (reason : string)
| Error (message : string).

Inductive outcome (A : Type) : Type :=
| Fulfilled (a : A)
| Rejected (e : exn).
Arguments Fulfilled {A} a.
Arguments Rejected {A} e.

Definition settle {A : Type} (r : reply A) : outcome A :=
  match r with
  | Resolved a => Fulfilled a
  | Failed reason => Rejected (Rejection reason)
  end.

(** The requests a client makes, as the outside sees them. *)
Inductive Event : Type :=
| Discover (pluginId : string)
| Fetch (url : string).

(** Oldest request first. *)
Abbreviation History := (list Event).

Definition Async (A : Type) : Type := History -> outcome A * History.

Definition ret {A : Type} (a : A) : Async A := fun h => (Fulfilled a, h).

(** [await]: a rejection ends the method, nothing of what follows runs. *)
Definition bind {A B : Type} (m : Async A) (k : A -> Async B) : Async B :=
  fun h =>
    match m h with
    | (Fulfilled a, h') => k a h'
    | (Rejected e, h') => (Rejected e, h')
    end.

Notation "x <- 'await' m ;; k" := (bind m (fun x => k))
  (at level 100, m at next level, right associativity,
   format "'[v' x  <-  'await'  m  ;;  '/' k ']'").

Definition throw {A : Type} (e : exn) : Async A :=
  fun h => (Rejected e, h).

(** A call to a collaborator: it sees the history, and the call is
    recorded. *)
Definition request {A : Type} (ev : Event) (answer : History -> reply A)
  : Async A :=
  fun h => (settle (answer h), h ++ [ev]).

(** Awaiting a promise that makes no request. *)
Definition promise {A : Type} (r : reply A) : Async A :=
  fun h => (settle r, h).

(** The result of a call, without the history. *)
Definition result {A : Type} (r : outcome A * History) : outcome A := r.1.

(** The requests a call added to the history [h]. *)
Definition issued {A : Type} (h : History) (r : outcome A * History)
  : list Event := drop (length h) r.2.

(** The URL the executor asks for, once the proxy base is known. *)
Definition request_url (base proxyPath path : string)
    (query : list (string * value)) : string :=
  (base +:+ proxyPath) +:+ "/" +:+ path +:+ "?"
    +:+ toString (URLSearchParams query).

(** ** The platform *)

Record Response : Type := { status : Z; body : string }.

(** [(await response.json()) as T]: the body read at type [T]; the promise
    is rejected when the body is not JSON. *)
Class Json (T : Type) : Type := json : Response -> reply T.

(** [DiscoveryApi] of [@backstage/core-plugin-api] *)
Record DiscoveryApi : Type :=
  { getBaseUrl : History -> string -> reply string }.

(** ** Data of [components/types] *)

(** Modelled from the spec: [ContributorData] of [components/types], which
    is not among the sources; the fields are those of the spec's
    Contributor, [avatar_url] optional. *)
Record ContributorData : Type :=
  { name : string;
    email : string;
    commits : Z;
    additions : Z;
    deletions : Z;
    avatar_url : option string }.

Definition set_avatar_url (c : ContributorData) (a : option string)
  : ContributorData :=
  {| name := name c; email := email c; commits := commits c;
     additions := additions c; deletions := deletions c; avatar_url := a |}.

(** Modelled from the spec: an entry of [parseCodeOwners]'s result
    ([components/utils], not among the sources). *)
Record OwnerEntry : Type := { pattern : string; owners : list string }.

(** Modelled from the spec: [parseCodeOwners] of [components/utils], which
    is not among the sources.  The specification leaves its grammar out and
    fixes one value: parsing the empty string yields the empty ownership
    list. *)
Definition parses_empty_text (parseCodeOwners : string -> list OwnerEntry)
  : Prop :=
  parseCodeOwners "" = [].

(** ** Results of [GitlabCIApi] *)

Record PipelineSummary := { getPipelinesData : option (list object) }.
Record IssuesSummary := { getIssuesData : option (list object) }.
Record MergeRequestsSummary := { getMergeRequestsData : option (list object) }.
Record MergeRequestsStatusSummary :=
  { getMergeRequestsStatusData : option (list object) }.
Record ContributorsSummary :=
  { getContributorsData : option (list ContributorData) }.
Record LanguagesSummary := { getLanguagesData : option object }.
(** The field is [getCodeOwners] in the source, as the method is. *)
Record CodeOwners := { getCodeOwners_ : list OwnerEntry }.

(** ** The client *)

Record GitlabCIClient : Type :=
  { discoveryApi : DiscoveryApi;
    baseUrl : string;
    proxyPath : string;
    codeOwnersPath : string }.

(** [x || d] for an optional string: [undefined] and the empty string are
    falsy. *)
Definition or_else (x : option string) (d : string) : string :=
  match x with
  | Some EmptyString | None => d
  | Some s => s
  end.

(** [constructor({ discoveryApi, baseUrl = 'https://gitlab.com/', proxyPath,
    codeOwnersPath })] *)
Definition constructor (discoveryApi : DiscoveryApi)
    (baseUrl proxyPath codeOwnersPath : option string) : GitlabCIClient :=
  let baseUrl := default "https://gitlab.com/" baseUrl in
  {| discoveryApi := discoveryApi;
     baseUrl := if endsWith baseUrl "/" then baseUrl else baseUrl +:+ "/";
     proxyPath := or_else proxyPath "/gitlabci";
     codeOwnersPath := or_else codeOwnersPath "CODEOWNERS" |}.

(** [x?.[0]] on a nullable array *)
Definition opt_first {A : Type} (x : option (list A)) : option A :=
  match x with
  | Some (a :: _) => Some a
  | _ => None
  end.

(** One turn of the [forEach] of [getUserProfilesData]: the profile is
    compared with entry [i] of the array and, on equal names, its avatar is
    stored there. *)
Definition assign_avatar (i : nat) (contributorsData : list ContributorData)
    (userProfileElement : ContributorData) : list ContributorData :=
  match contributorsData !! i with
  | Some c =>
      if String.eqb (name userProfileElement) (name c)
      then <[i := set_avatar_url c (avatar_url userProfileElement)]>
             contributorsData
      else contributorsData
  | None => contributorsData
  end.

Section Client.

(** The global [fetch]. *)
Variable fetch : History -> string -> reply Response.

(** The body reader, at the types the client reads bodies at. *)
Context {json_objects : Json (list object)} {json_object : Json object}
        {json_contributors : Json (list ContributorData)}
        {json_string : Json string}.

Variable this : GitlabCIClient.

Definition callApi {T : Type} {json_T : Json T} (path : string)
    (query : list (string * value)) : Async (option T) :=
  base <- await request (Discover "proxy")
           (fun h => getBaseUrl (discoveryApi this) h "proxy");;
  let apiUrl := base +:+ proxyPath this in
  let url := apiUrl +:+ "/" +:+ path +:+ "?"
               +:+ toString (URLSearchParams query) in
  response <- await request (Fetch url) (fun h => fetch h url);;
  if status response =? 200
  then v <- await promise (json response);; ret (Some v)
  else ret None.

Definition getPipelineSummary (projectID : option string)
  : Async PipelineSummary :=
  pipelineObjects <- await callApi (T := list object)
    ("projects/" +:+ str projectID +:+ "/pipelines") [];;
  projectObj <- await callApi (T := object) ("projects/" +:+ str projectID) [];;
  let pipelineObjects :=
    (fun l => List.map (fun element =>
                set element "project_name" (opt_get projectObj "name")) l)
      <$> pipelineObjects in
  ret {| getPipelinesData := pipelineObjects |}.

Definition getIssuesSummary (projectId : string) : Async IssuesSummary :=
  issuesObject <- await callApi (T := list object)
    ("projects/" +:+ projectId +:+ "/issues") [];;
  projectObj <- await callApi (T := object) ("projects/" +:+ projectId) [];;
  let issuesObject :=
    (fun l => List.map (fun element =>
                set element "project_name" (opt_get projectObj "name")) l)
      <$> issuesObject in
  ret {| getIssuesData := issuesObject |}.

Definition getProjectName (projectID : option string) : Async value :=
  projectObj <- await callApi (T := object) ("projects/" +:+ str projectID) [];;
  ret (opt_get projectObj "name").

(** The [for] loop of [getUserProfilesData] from index [i] on; [n] bounds
    the turns left, and the loop is entered with [n] the length of the
    array, which no turn changes. *)
Fixpoint getUserProfilesData_from (n i : nat)
    (contributorsData : list ContributorData)
  : Async (list ContributorData) :=
  match n with
  | O => ret contributorsData
  | S n =>
      match contributorsData !! i with
      | None => ret contributorsData
      | Some c =>
          userProfile <- await callApi (T := list ContributorData) "users"
                          [("search", VStr (email c))];;
          let contributorsData :=
            match userProfile with
            | Some userProfile =>
                fold_left (assign_avatar i) userProfile contributorsData
            | None => contributorsData
            end in
          getUserProfilesData_from n (S i) contributorsData
      end
  end.

Definition getUserProfilesData
    (contributorsData : option (list ContributorData))
  : Async (option (list ContributorData)) :=
  match contributorsData with
  | Some l => l <- await getUserProfilesData_from (length l) 0 l;; ret (Some l)
  | None => ret None
  end.

Definition getMergeRequestsSummary (projectID : option string)
  : Async MergeRequestsSummary :=
  mergeRquestsList <- await callApi (T := list object)
    ("projects/" +:+ str projectID +:+ "/merge_requests") [];;
  ret {| getMergeRequestsData := mergeRquestsList |}.

Definition getMergeRequestsStatusSummary (projectID : option string)
    (count : option Z) : Async MergeRequestsStatusSummary :=
  mergeRequestsList <- await callApi (T := list object)
    ("projects/" +:+ str projectID +:+ "/merge_requests")
    [("per_page", from_option VNum VUndefined count)];;
  ret {| getMergeRequestsStatusData := mergeRequestsList |}.

Definition getContributorsSummary (projectID : option string)
  : Async ContributorsSummary :=
  contributorsData <- await callApi (T := list ContributorData)
    ("projects/" +:+ str projectID +:+ "/repository/contributors")
    [("sort", VStr "desc")];;
  updatedContributorsData <- await getUserProfilesData contributorsData;;
  ret {| getContributorsData := updatedContributorsData |}.

Definition getLanguagesSummary (projectID : option string)
  : Async LanguagesSummary :=
  languageObjects <- await callApi (T := object)
    ("projects/" +:+ str projectID +:+ "/languages") [];;
  ret {| getLanguagesData := languageObjects |}.

(** The result is [undefined] when nothing was fetched, else what the
    executor returned ([null] or the project). *)
Definition getProjectDetails (projectSlug : option string) : Async value :=
  match projectSlug with
  | Some (String _ _ as projectSlug) =>
      projectDetails <- await callApi (T := object)
        ("projects/" +:+ encodeURIComponent projectSlug) [];;
      ret (from_option VObj VNull projectDetails)
  | _ => ret VUndefined
  end.

Definition retryPipelineBuild (projectID pipelineID : option string)
  : Async (option object) :=
  retryBuild <- await callApi (T := object)
    ("projects/" +:+ str projectID +:+ "/pipelines/" +:+ str pipelineID
       +:+ "/retry") [];;
  ret retryBuild.

Section Owners.

(** [parseCodeOwners] of [components/utils], which is not among the
    sources: any parser. *)
Variable parseCodeOwners : string -> list OwnerEntry.

Definition getCodeOwners (projectID branch filePath : option string)
  : Async CodeOwners :=
  let branch := default "HEAD" branch in
  let filePath := default (codeOwnersPath this) filePath in
  (* Removing starting './' *)
  let filePath :=
    if startsWith filePath "./" then slice 2 filePath else filePath in
  codeOwnersStr <- await callApi (T := string)
    ("projects/" +:+ str projectID +:+ "/repository/files/"
       +:+ encodeURI filePath +:+ "/raw")
    [("ref", VStr branch)];;
  ret {| getCodeOwners_ := parseCodeOwners (or_else codeOwnersStr "") |}.

End Owners.

Definition getUserDetail (username : string) : Async object :=
  let username :=
    if startsWith username "@" then slice 1 username else username in
  r <- await callApi (T := list object) "users" [("username", VStr username)];;
  match opt_first r with
  | None => throw (Error ("user " +:+ username +:+ " does not exist"))
  | Some userDetail => ret userDetail
  end.

End Client.

(** ** Reading a query string back

    The [application/x-www-form-urlencoded] parser of the URL Standard, the
    one a server applies to the query of a request: it tells which
    parameters a query string carries, and in which order. *)

Definition is_hex (c : ascii) : bool :=
  let n := N_of_ascii c in
  ((48 <=? n) && (n <=? 57) || (65 <=? n) && (n <=? 70)
   || (97 <=? n) && (n <=? 102))%N.

Definition hex_value (c : ascii) : N :=
  let n := N_of_ascii c in
  (if n <=? 57 then n - 48 else if n <=? 70 then n - 55 else n - 87)%N.

Fixpoint percent_decode (s : string) : string :=
  match s with
  | EmptyString => EmptyString
  | String c s' =>
      if Ascii.eqb c "%" then
        match s' with
        | String a (String b rest) =>
            if is_hex a && is_hex b
            then String (ascii_of_N (16 * hex_value a + hex_value b))
                        (percent_decode rest)
            else String c (percent_decode s')
        | _ => String c (percent_decode s')
        end
      else String c (percent_decode s')
  end.

Fixpoint plus_to_space (s : string) : string :=
  match s with
  | EmptyString => EmptyString
  | String c s => String (if Ascii.eqb c "+" then " "%char else c) (plus_to_space s)
  end.

(** The pieces of [s] between the occurrences of [sep]. *)
Fixpoint split_on (sep : ascii) (s : string) : list string :=
  match s with
  | EmptyString => [EmptyString]
  | String c s =>
      if Ascii.eqb c sep then EmptyString :: split_on sep s
      else match split_on sep s with
           | piece :: pieces => String c piece :: pieces
           | [] => [String c EmptyString]
           end
  end.

(** [s] cut at its first [sep]; all of [s] and nothing when it has none. *)
Fixpoint cut_at (sep : ascii) (s : string) : string * string :=
  match s with
  | EmptyString => (EmptyString, EmptyString)
  | String c s =>
      if Ascii.eqb c sep then (EmptyString, s)
      else (String c (cut_at sep s).1, (cut_at sep s).2)
  end.

(** One piece between two [&]: nothing when empty, else a name and a
    value. *)
Definition parse_piece (bytes : string) : list (string * string) :=
  match bytes with
  | EmptyString => []
  | _ => [(percent_decode (plus_to_space (cut_at "=" bytes).1),
           percent_decode (plus_to_space (cut_at "=" bytes).2))]
  end.

Definition urlencoded_parse (input : string) : list (string * string) :=
  flat_map parse_piece (split_on "&" input).

(** ** The enrichment, as the specification words it and as it is *)

Definition same_name (c p : ContributorData) : bool :=
  String.eqb (name p) (name c).

(** The specification's rule: the avatar of the first profile of the search
    result whose name is the contributor's; absent when there is none. *)
Definition first_match_avatar (c : ContributorData)
    (userProfile : list ContributorData) : option string :=
  match List.find (same_name c) userProfile with
  | Some p => avatar_url p
  | None => None
  end.

(** The last profile of the search result whose name is the
    contributor's. *)
Definition last_match (c : ContributorData)
    (userProfile : list ContributorData) : option ContributorData :=
  last (List.filter (same_name c) userProfile).

(** A contributor after its search returned [userProfile] ([None]: no
    data). *)
Definition enriched (c : ContributorData)
    (userProfile : option (list ContributorData)) : ContributorData :=
  match userProfile with
  | Some userProfile =>
      match last_match c userProfile with
      | Some p => set_avatar_url c (avatar_url p)
      | None => c
      end
  | None => c
  end.

(** The specification's rule for the query: entries whose value is
    [undefined] are left out. *)
Definition omit_undefined (query : list (string * value))
  : list (string * value) :=
  List.filter (fun kv => match kv.2 with VUndefined => false | _ => true end)
              query.

(** The enrichment read as one independent step per contributor: each is
    searched by its own e-mail, in list order, and replaced by what
    [enriched] makes of the answer. *)
Fixpoint enrich_each (fetch : History -> string -> reply Response)
    {json_contributors : Json (list ContributorData)} (this : GitlabCIClient)
    (contributorsData : list ContributorData)
  : Async (list ContributorData) :=
  match contributorsData with
  | [] => ret []
  | c :: rest =>
      userProfile <- await callApi fetch this (T := list ContributorData)
                        "users" [("search", VStr (email c))];;
      rest <- await enrich_each fetch this rest;;
      ret (enriched c userProfile :: rest)
  end.

(** ** The annotation, as a relation *)

(** [data] is the fetched list [fetched] with [project_name] set on every
    element to the name of [projectObj], every other property kept;
    [project_name] is [undefined] when there is no project. *)
Definition annotated (fetched : option (list object))
    (projectObj : option object) (data : option (list object)) : Prop :=
  match fetched with
  | None => data = None
  | Some l =>
      exists l', data = Some l'
        /\ Forall2 (fun element element' =>
                      get element' "project_name" = opt_get projectObj "name"
                      /\ (projectObj = None ->
                          get element' "project_name" = VUndefined)
                      /\ (forall k, k <> "project_name" ->
                                    get element' k = get element k)) l l'
  end.

(** ** Stub collaborators, for the examples *)

Definition lookup_by {A : Type} (k : string) (table : list (string * A))
  : option A :=
  snd <$> List.find (fun kv => String.eqb kv.1 k) table.

(** A discovery service that always answers with the same base. *)
Definition stub_discovery : DiscoveryApi :=
  {| getBaseUrl := fun _ _ => Resolved "http://localhost:7007/api/proxy" |}.

(** A network that answers by URL, and 404 for a URL it does not know. *)
Definition stub_fetch (routes : list (string * reply Response))
  : History -> string -> reply Response :=
  fun _ url =>
    default (Resolved {| status := 404; body := "" |}) (lookup_by url routes).

(** A body reader that knows the bodies of [table] and fails on the
    others. *)
Definition stub_json {T : Type} (table : list (string * T)) : Json T :=
  fun response =>
    match lookup_by (body response) table with
    | Some v => Resolved v
    | None => Failed "SyntaxError: Unexpected token"
    end.

(** A parser for the examples: a text is one entry owned by nobody, the
    empty text none. *)
Definition stub_parseCodeOwners (text : string) : list OwnerEntry :=
  match text with
  | EmptyString => []
  | _ => [{| pattern := text; owners := [] |}]
  end.

Definition stub_client : GitlabCIClient :=
  constructor stub_discovery (Some "https://gitlab.example.org") None None.

Definition ann : ContributorData :=
  {| name := "Ann"; email := "ann@example.org"; commits := 12;
     additions := 340; deletions := 25; avatar_url := None |}.

Definition bob : ContributorData :=
  {| name := "Bob"; email := "bob@example.org"; commits := 4;
     additions := 18; deletions := 2; avatar_url := None |}.

Definition profile (name avatar : string) : ContributorData :=
  {| name := name; email := ""; commits := 0; additions := 0; deletions := 0;
     avatar_url := Some avatar |}.

Definition ok (body : string) : reply Response :=
  Resolved {| status := 200; body := body |}.

Definition users_search (email : string) : string :=
  "http://localhost:7007/api/proxy/gitlabci/users?search=" +:+ email.

(** Two profiles of the same name, as a search by e-mail may return. *)
Definition two_anns : list ContributorData :=
  [profile "Ann" "https://gitlab.example.org/uploads/1/avatar.png";
   profile "Ann" "https://gitlab.example.org/uploads/2/avatar.png"].

(** A network on which the search for Ann returns [two_anns]. *)
Definition fetch_two_anns : History -> string -> reply Response :=
  stub_fetch [(users_search "ann%40example.org", ok "two anns")].

Definition json_two_anns : Json (list ContributorData) :=
  stub_json [("two anns", two_anns)].


(** A network on which the search for Ann gets a 404 and the one for Bob
    succeeds. *)
Definition fetch_ann_unknown : History -> string -> reply Response :=
  stub_fetch [(users_search "bob%40example.org", ok "bob")].

Definition json_bob : Json (list ContributorData) :=
  stub_json [("bob", [profile "Bob" "https://gitlab.example.org/bob.png"])].

(** A project with one pipeline. *)
Definition fetch_project : History -> string -> reply Response :=
  stub_fetch
    [("http://localhost:7007/api/proxy/gitlabci/projects/7/pipelines?",
      ok "pipelines");
     ("http://localhost:7007/api/proxy/gitlabci/projects/7?", ok "project")].

Definition a_pipeline : object :=
  <["id" := VNum 101]> (<["status" := VStr "success"]> ∅).

Definition json_pipelines : Json (list object) :=
  stub_json [("pipelines", [a_pipeline])].

Definition json_project : Json object :=
  stub_json [("project", <["name" := VStr "demo"]> ∅)].

(** A user directory that knows nobody. *)
Definition fetch_no_user : History -> string -> reply Response :=
  stub_fetch
    [("http://localhost:7007/api/proxy/gitlabci/users?username=nobody",
      ok "[]")].

Definition json_no_user : Json (list object) := stub_json [("[]", [])].

(** A discovery service that is down. *)
Definition stub_discovery_down : DiscoveryApi :=
  {| getBaseUrl := fun _ _ => Failed "Error: no proxy" |}.

(** A network that is down. *)
Definition fetch_down : History -> string -> reply Response :=
  fun _ _ => Failed "TypeError: Failed to fetch".

(** A project whose code owners file is there, as plain text. *)
Definition fetch_owners_text : History -> string -> reply Response :=
  stub_fetch
    [("http://localhost:7007/api/proxy/gitlabci/projects/7/repository/files/CODEOWNERS/raw?ref=HEAD",
      ok "* @ann")].

(** What the searches of the examples answer, by e-mail. *)
Definition answer_bob_only (email : string)
  : option (list ContributorData) :=
  if String.eqb email "bob@example.org"
  then Some [profile "Bob" "https://gitlab.example.org/bob.png"]
  else None.

(** * Properties *)

(** ** The platform functions on small inputs *)

Example ToString_examples :
  ToString VUndefined = "undefined"
  /\ ToString (VNum 20) = "20"
  /\ ToString (VNum (-3)) = "-3"
  /\ ToString (VArr [VNum 1; VNull; VStr "x"]) = "1,,x"
  /\ ToString (VObj ∅) = "[object Object]".
Proof. repeat split; reflexivity. Qed.

Example toString_example :
  toString (URLSearchParams [("ref", VStr "feature/x y"); ("per_page", VNum 20)])
  = "ref=feature%2Fx+y&per_page=20".
Proof. reflexivity. Qed.

Example encodeURI_example :
  encodeURI "docs/CODE OWNERS" = "docs/CODE%20OWNERS"
  /\ encodeURIComponent "group/my project" = "group%2Fmy%20project".
Proof. split; reflexivity. Qed.

Example urlencoded_parse_example :
  urlencoded_parse "ref=feature%2Fx+y&&per_page=20&flag"
  = [("ref", "feature/x y"); ("per_page", "20"); ("flag", "")].
Proof. reflexivity. Qed.

Example constructor_defaults :
  constructor stub_discovery None None (Some "") =
  {| discoveryApi := stub_discovery; baseUrl := "https://gitlab.com/";
     proxyPath := "/gitlabci"; codeOwnersPath := "CODEOWNERS" |}.
Proof. reflexivity. Qed.

(** ** Strings and query strings *)

Lemma char_in_app c a b : char_in c (a +:+ b) = char_in c a || char_in c b.
Proof.
  induction a as [|x a IH]; simpl; [reflexivity|].
  rewrite IH. apply orb_assoc.
Qed.

Lemma urlencode_byte_clean c sep :
  sep = "&"%char \/ sep = "="%char -> char_in sep (urlencode_byte c) = false.
Proof.
  intros [-> | ->]; destruct c as [[] [] [] [] [] [] [] []]; reflexivity.
Qed.

Lemma urlencode_clean s sep :
  sep = "&"%char \/ sep = "="%char -> char_in sep (urlencode s) = false.
Proof.
  intros Hsep. induction s as [|c s IH]; simpl; [reflexivity|].
  rewrite char_in_app, IH, (urlencode_byte_clean c sep Hsep). reflexivity.
Qed.

Lemma decode_urlencode_byte c t :
  percent_decode (plus_to_space (urlencode_byte c +:+ t))
  = String c (percent_decode (plus_to_space t)).
Proof. destruct c as [[] [] [] [] [] [] [] []]; reflexivity. Qed.

Lemma decode_urlencode s : percent_decode (plus_to_space (urlencode s)) = s.
Proof.
  induction s as [|c s IH]; [reflexivity|].
  cbn [urlencode]. rewrite decode_urlencode_byte, IH. reflexivity.
Qed.

Lemma cut_at_app sep a b :
  char_in sep a = false -> cut_at sep (a +:+ String sep b) = (a, b).
Proof.
  induction a as [|x a IH]; simpl.
  - intros _. rewrite Ascii.eqb_refl. reflexivity.
  - intros H. apply orb_false_elim in H as [Hx Ha].
    rewrite Hx, (IH Ha). reflexivity.
Qed.

Lemma split_on_clean sep a : char_in sep a = false -> split_on sep a = [a].
Proof.
  induction a as [|x a IH]; simpl; [reflexivity|].
  intros H. apply orb_false_elim in H as [Hx Ha].
  rewrite Hx, (IH Ha). reflexivity.
Qed.

Lemma split_on_app sep a b :
  char_in sep a = false ->
  split_on sep (a +:+ String sep b) = a :: split_on sep b.
Proof.
  induction a as [|x a IH]; simpl.
  - intros _. rewrite Ascii.eqb_refl. reflexivity.
  - intros H. apply orb_false_elim in H as [Hx Ha].
    rewrite Hx, (IH Ha). reflexivity.
Qed.

Lemma split_on_join sep piece pieces :
  Forall (fun p => char_in sep p = false) (piece :: pieces) ->
  split_on sep (join (String sep EmptyString) (piece :: pieces))
  = piece :: pieces.
Proof.
  revert piece. induction pieces as [|q pieces IH]; intros piece Hall.
  - apply split_on_clean. exact (Forall_inv Hall).
  - change (join (String sep EmptyString) (piece :: q :: pieces))
      with (piece +:+ String sep (join (String sep EmptyString) (q :: pieces))).
    rewrite split_on_app by exact (Forall_inv Hall).
    rewrite IH by exact (Forall_inv_tail Hall). reflexivity.
Qed.

Lemma urlencoded_pair_clean kv : char_in "&" (urlencoded_pair kv) = false.
Proof.
  unfold urlencoded_pair. rewrite !char_in_app. simpl.
  rewrite !urlencode_clean by auto. reflexivity.
Qed.

Lemma parse_urlencoded_pair kv : parse_piece (urlencoded_pair kv) = [kv].
Proof.
  destruct kv as [k v]. unfold parse_piece, urlencoded_pair. cbn [fst snd].
  change (urlencode k +:+ "=" +:+ urlencode v)
    with (urlencode k +:+ String "=" (urlencode v)).
  rewrite cut_at_app by (apply urlencode_clean; auto).
  cbn [fst snd]. rewrite !decode_urlencode.
  destruct (urlencode k); reflexivity.
Qed.

Lemma parse_urlencoded_pairs params :
  flat_map parse_piece (List.map urlencoded_pair params) = params.
Proof.
  induction params as [|kv params IH]; [reflexivity|].
  cbn [List.map flat_map]. rewrite parse_urlencoded_pair, IH. reflexivity.
Qed.

(** A server reading the query string of a request back finds the pairs of
    the [URLSearchParams], all of them and in their order. *)
Lemma urlencoded_parse_toString params :
  urlencoded_parse (toString params) = params.
Proof.
  destruct params as [|kv params]; [reflexivity|].
  unfold urlencoded_parse, toString. cbn [List.map].
  rewrite split_on_join.
  - apply (parse_urlencoded_pairs (kv :: params)).
  - apply (Forall_forall _ (List.map urlencoded_pair (kv :: params))).
    intros p Hp. apply list_elem_of_In, in_map_iff in Hp as [q [<- _]].
    apply urlencoded_pair_clean.
Qed.

(** ** The executor *)

Section Executor.

Variable fetch : History -> string -> reply Response.
Variable this : GitlabCIClient.
Context {T : Type} {json_T : Json T}.

(** What [callApi] does, case by case. *)
Lemma callApi_cases path query h :
  callApi fetch this (T := T) path query h =
  match getBaseUrl (discoveryApi this) h "proxy" with
  | Failed reason => (Rejected (Rejection reason), h ++ [Discover "proxy"])
  | Resolved base =>
      let url := request_url base (proxyPath this) path query in
      (match fetch (h ++ [Discover "proxy"]) url with
       | Failed reason => Rejected (Rejection reason)
       | Resolved response =>
           if status response =? 200
           then match json response with
                | Resolved v => Fulfilled (Some v)
                | Failed reason => Rejected (Rejection reason)
                end
           else Fulfilled None
       end,
       h ++ [Discover "proxy"; Fetch url])
  end.
Proof.
  unfold callApi, bind, request, promise, ret, request_url.
  destruct (getBaseUrl (discoveryApi this) h "proxy") as [base|reason];
    cbn [settle]; [|reflexivity].
  rewrite <- app_assoc. cbn [app].
  destruct (fetch _ _) as [response|reason]; cbn [settle]; [|reflexivity].
  destruct (status response =? 200); [|reflexivity].
  destruct (json response); reflexivity.
Qed.

(** Once the proxy base is known the executor makes one request, whatever
    comes of it. *)
Lemma callApi_issued path query h base :
  getBaseUrl (discoveryApi this) h "proxy" = Resolved base ->
  issued h (callApi fetch this (T := T) path query h)
  = [Discover "proxy";
     Fetch (request_url base (proxyPath this) path query)].
Proof.
  intros Hbase. rewrite callApi_cases, Hbase. unfold issued. cbn [snd].
  apply drop_app_length.
Qed.

(** The executor never rejects with an [Error] of the client's own. *)
Lemma callApi_no_Error path query h message :
  result (callApi fetch this (T := T) path query h)
  <> Rejected (Error message).
Proof.
  rewrite callApi_cases. unfold result.
  destruct (getBaseUrl _ _ _); cbn [fst]; [|discriminate].
  destruct (fetch _ _); [|discriminate].
  destruct (status _ =? 200); [|discriminate].
  destruct (json _); discriminate.
Qed.

(** The executor's result once the request got a response. *)
Lemma callApi_result path query h base response :
  getBaseUrl (discoveryApi this) h "proxy" = Resolved base ->
  fetch (h ++ [Discover "proxy"])
        (request_url base (proxyPath this) path query) = Resolved response ->
  result (callApi fetch this (T := T) path query h)
  = if status response =? 200
    then match json response with
         | Resolved v => Fulfilled (Some v)
         | Failed reason => Rejected (Rejection reason)
         end
    else Fulfilled None.
Proof.
  intros Hbase Hfetch. rewrite callApi_cases, Hbase. cbn zeta.
  rewrite Hfetch. reflexivity.
Qed.


(** C2, as the code has it.  For every call to the executor that gets past
    discovery, the request carries every entry of the query, in the order
    of the query's entries, none left out: a server reading the query
    string back finds the names of the entries, all of them and in their
    order; an entry whose value is [undefined] arrives with the text
    [undefined]; and every entry arrives at its own place with the text of
    its value (for a number: of a safe integer, the others having another
    text in JavaScript than their digits). *)
Theorem callApi_query_sent_whole path query h base :
  getBaseUrl (discoveryApi this) h "proxy" = Resolved base ->
  exists search : string,
    issued h (callApi fetch this (T := T) path query h)
    = [Discover "proxy";
       Fetch ((base +:+ proxyPath this) +:+ "/" +:+ path +:+ "?" +:+ search)]
    /\ List.map fst (urlencoded_parse search) = List.map fst query
    /\ (forall k, In (k, VUndefined) query ->
                  In (k, "undefined") (urlencoded_parse search))
    /\ (forall (i : nat) k v,
           query !! i = Some (k, v) ->
           printable v = true ->
           urlencoded_parse search !! i = Some (k, ToString v)).
Proof.
  intros Hbase. exists (toString (URLSearchParams query)).
  split; [exact (callApi_issued path query h base Hbase)|].
  rewrite urlencoded_parse_toString. unfold URLSearchParams.
  split; [|split].
  - rewrite List.map_map. reflexivity.
  - intros k Hk.
    apply (in_map (fun kv => (kv.1, ToString kv.2))) in Hk. exact Hk.
  - intros i k v Hi _. revert i Hi.
    induction query as [|kv l IH]; intros [|i] Hi; try discriminate.
    + injection Hi as ->. reflexivity.
    + exact (IH i Hi).
Qed.

End Executor.

(** ** Contributor enrichment *)

Lemma set_avatar_url_enriched c userProfile a :
  set_avatar_url (enriched c userProfile) a = set_avatar_url c a.
Proof.
  unfold enriched. destruct userProfile as [ps|]; [|reflexivity].
  destruct (last_match c ps); reflexivity.
Qed.

Lemma same_name_enriched c userProfile p :
  same_name (enriched c userProfile) p = same_name c p.
Proof.
  unfold enriched. destruct userProfile as [ps|]; [|reflexivity].
  destruct (last_match c ps); reflexivity.
Qed.

(** One more profile at the end of a search result. *)
Lemma enriched_snoc c ps p :
  enriched c (Some (ps ++ [p]))
  = if same_name c p then set_avatar_url c (avatar_url p)
    else enriched c (Some ps).
Proof.
  unfold enriched, last_match. rewrite List.filter_app. cbn [List.filter].
  destruct (same_name c p).
  - rewrite last_snoc. reflexivity.
  - rewrite app_nil_r. reflexivity.
Qed.

(** The [forEach] over a search result leaves the array as it was, but for
    entry [i], which ends as [enriched] says. *)
Lemma fold_assign_avatar i (l : list ContributorData) c ps :
  l !! i = Some c ->
  fold_left (assign_avatar i) ps l = <[i := enriched c (Some ps)]> l.
Proof.
  intros Hc. induction ps as [|p ps IH] using rev_ind.
  - cbn. symmetry. apply list_insert_id. exact Hc.
  - rewrite fold_left_app, IH. cbn [fold_left]. unfold assign_avatar.
    rewrite list_lookup_insert_eq by (eapply lookup_lt_Some; exact Hc).
    fold (same_name (enriched c (Some ps)) p).
    rewrite same_name_enriched, enriched_snoc.
    destruct (same_name c p); [|reflexivity].
    rewrite list_insert_insert_eq, set_avatar_url_enriched. reflexivity.
Qed.

Section Enrichment.

Variable fetch : History -> string -> reply Response.
Context {json_contributors : Json (list ContributorData)}.
Variable this : GitlabCIClient.

Abbreviation search c :=
  (callApi fetch this (T := list ContributorData) "users"
           [("search", VStr (email c))]).

(** The loop, entered at index [length done] with the entries before it
    done, handles the entries left one by one. *)
Lemma getUserProfilesData_from_each done rest h :
  getUserProfilesData_from fetch this (length rest) (length done)
                           (done ++ rest) h
  = bind (enrich_each fetch this rest) (fun l => ret (done ++ l)) h.
Proof.
  revert done h. induction rest as [|c rest IH]; intros done h.
  - reflexivity.
  - cbn [length getUserProfilesData_from enrich_each].
    rewrite list_lookup_middle by reflexivity.
    unfold bind at 1 2 3. destruct (search c h) as [[userProfile|e] h1];
      [|reflexivity].
    assert (Hstep :
      match userProfile with
      | Some userProfile =>
          fold_left (assign_avatar (length done)) userProfile
                    (done ++ c :: rest)
      | None => done ++ c :: rest
      end = (done ++ [enriched c userProfile]) ++ rest).
    { rewrite <- app_assoc. cbn [app].
      destruct userProfile as [ps|]; [|reflexivity].
      rewrite (fold_assign_avatar _ _ c)
        by (apply list_lookup_middle; reflexivity).
      rewrite <- (Nat.add_0_r (length done)) at 1.
      rewrite insert_app_r. reflexivity. }
    rewrite Hstep.
    replace (S (length done)) with (length (done ++ [enriched c userProfile]))
      by (rewrite length_app; cbn; lia).
    rewrite IH. unfold bind, ret.
    destruct (enrich_each fetch this rest h1) as [[l|e] h2]; [|reflexivity].
    rewrite <- app_assoc. reflexivity.
Qed.

Lemma getUserProfilesData_each cs h :
  getUserProfilesData fetch this (Some cs) h
  = bind (enrich_each fetch this cs) (fun l => ret (Some l)) h.
Proof.
  cbn [getUserProfilesData].
  pose proof (getUserProfilesData_from_each [] cs) as H. cbn in H.
  unfold bind at 1. rewrite H. unfold bind, ret.
  destruct (enrich_each fetch this cs h) as [[l|e] h']; reflexivity.
Qed.

(** What each contributor has become when [enrich_each] is fulfilled. *)
Lemma enrich_each_fulfilled cs h cs' h' :
  enrich_each fetch this cs h = (Fulfilled cs', h') ->
  Forall2 (fun c c' =>
             exists userProfile hi,
               result (search c hi) = Fulfilled userProfile
               /\ c' = enriched c userProfile) cs cs'.
Proof.
  revert h cs' h'. induction cs as [|c cs IH]; intros h cs' h' Heq.
  - cbn in Heq. injection Heq as <- _. constructor.
  - cbn [enrich_each] in Heq. unfold bind at 1 in Heq.
    destruct (search c h) as [[userProfile|e] h1] eqn:Hsearch;
      [|discriminate].
    unfold bind at 1 in Heq.
    destruct (enrich_each fetch this cs h1) as [[l|e] h2] eqn:Hrest;
      [|discriminate].
    cbn in Heq. injection Heq as <- _. constructor.
    + exists userProfile, h. unfold result. rewrite Hsearch. split; reflexivity.
    + exact (IH h1 l h2 Hrest).
Qed.


(** C1, as the code has it.  When the enrichment of a contributor list
    returns, every contributor of the list has been replaced by itself
    with [avatar_url] set to that of the LAST entry of its own search
    result whose name is exactly its name; with no such entry, and with no
    search result, the contributor is as it was (an absent [avatar_url]
    stays absent). *)
Theorem enrichment_takes_last_match cs h cs' h' :
  getUserProfilesData fetch this (Some cs) h = (Fulfilled (Some cs'), h') ->
  Forall2 (fun c c' =>
             exists userProfile hi,
               result (search c hi) = Fulfilled userProfile
               /\ c' = match userProfile with
                       | Some userProfile =>
                           match last_match c userProfile with
                           | Some p => set_avatar_url c (avatar_url p)
                           | None => c
                           end
                       | None => c
                       end) cs cs'.
Proof.
  rewrite getUserProfilesData_each. unfold bind, ret.
  destruct (enrich_each fetch this cs h) as [[l|e] h1] eqn:Heach;
    [|discriminate].
  intros Heq. injection Heq as <- _.
  exact (enrich_each_fulfilled cs h l h1 Heach).
Qed.




End Enrichment.

(** ** Ownership resolution *)

Lemma startsWith_app p s : startsWith (p +:+ s) p = true.
Proof.
  unfold startsWith. induction p as [|a p IH]; simpl; [destruct s; reflexivity|].
  destruct (ascii_dec a a); [exact IH|congruence].
Qed.

Lemma slice_app p s : slice (String.length p) (p +:+ s) = s.
Proof. induction p as [|a p IH]; cbn; [reflexivity|exact IH]. Qed.

Section Owners.

Variable fetch : History -> string -> reply Response.
Context {json_string : Json string}.
Variable this : GitlabCIClient.
Variable parseCodeOwners : string -> list OwnerEntry.

(** [getCodeOwners] on a path without its leading [./]: the file asked
    for is [filePath] as it stands. *)
Lemma getCodeOwners_cases projectID branch filePath h :
  startsWith filePath "./" = false ->
  getCodeOwners fetch this parseCodeOwners projectID branch (Some filePath) h
  = let r := callApi fetch this (T := string)
               ("projects/" +:+ str projectID +:+ "/repository/files/"
                  +:+ encodeURI filePath +:+ "/raw")
               [("ref", VStr (default "HEAD" branch))] h in
    (match r.1 with
     | Fulfilled codeOwnersStr =>
         Fulfilled
           {| getCodeOwners_ := parseCodeOwners (or_else codeOwnersStr "") |}
     | Rejected e => Rejected e
     end, r.2).
Proof.
  intros Hp. unfold getCodeOwners, bind, ret. cbn [default from_option id].
  rewrite Hp. destruct (callApi _ _ _ _ _) as [[r|e] h']; reflexivity.
Qed.

(** With the leading [./] on, the file asked for is what follows it. *)
Lemma getCodeOwners_dot_slash projectID branch p h :
  getCodeOwners fetch this parseCodeOwners projectID branch
                (Some ("./" +:+ p)) h
  = let r := callApi fetch this (T := string)
               ("projects/" +:+ str projectID +:+ "/repository/files/"
                  +:+ encodeURI p +:+ "/raw")
               [("ref", VStr (default "HEAD" branch))] h in
    (match r.1 with
     | Fulfilled codeOwnersStr =>
         Fulfilled
           {| getCodeOwners_ := parseCodeOwners (or_else codeOwnersStr "") |}
     | Rejected e => Rejected e
     end, r.2).
Proof.
  unfold getCodeOwners, bind, ret. cbn [default from_option id].
  rewrite (startsWith_app "./" p).
  change (slice 2 ("./" +:+ p)) with p.
  destruct (callApi _ _ _ _ _) as [[r|e] h']; reflexivity.
Qed.

(** Whatever the arguments, [getCodeOwners] is one call of the executor
    followed by the parser. *)
Lemma getCodeOwners_one_call projectID branch filePath h :
  exists path query,
    getCodeOwners fetch this parseCodeOwners projectID branch filePath h
    = ((match (callApi fetch this (T := string) path query h).1 with
        | Fulfilled codeOwnersStr =>
            Fulfilled {| getCodeOwners_ :=
                           parseCodeOwners (or_else codeOwnersStr "") |}
        | Rejected e => Rejected e
        end), (callApi fetch this (T := string) path query h).2).
Proof.
  unfold getCodeOwners, bind, ret.
  match goal with
  | |- context [callApi fetch this ?path ?query h] =>
      exists path, query;
      destruct (callApi fetch this path query h) as [[r|e] h']
  end; reflexivity.
Qed.

(** C4. For every project, branch and file path, when the request for the
    raw file gets a response whose status is not 200 (no such file, no
    such branch: the executor returns absent), [getCodeOwners] parses the
    empty string and, the parser giving no entry for it, returns the empty
    ownership list; it does not throw. *)
Theorem getCodeOwners_no_content projectID branch filePath h base :
  getBaseUrl (discoveryApi this) h "proxy" = Resolved base ->
  (forall url,
      In (Fetch url)
         (issued h (getCodeOwners fetch this parseCodeOwners projectID
                                  branch filePath h)) ->
      exists response,
        fetch (h ++ [Discover "proxy"]) url = Resolved response
        /\ status response <> 200) ->
  parses_empty_text parseCodeOwners ->
  result (getCodeOwners fetch this parseCodeOwners projectID branch
                        filePath h)
  = Fulfilled {| getCodeOwners_ := parseCodeOwners "" |}
  /\ result (getCodeOwners fetch this parseCodeOwners projectID branch
                           filePath h)
     = Fulfilled {| getCodeOwners_ := [] |}.
Proof.
  intros Hbase Hfetch Hparse.
  destruct (getCodeOwners_one_call projectID branch filePath h)
    as (path & query & Heq).
  rewrite Heq in *. clear Heq. unfold result, issued in *. cbn [fst snd] in *.
  pose proof (callApi_issued fetch this (T := string) path query h base
                             Hbase) as Hissued.
  unfold issued in Hissued. rewrite Hissued in Hfetch.
  destruct (Hfetch (request_url base (proxyPath this) path query))
    as (response & Hresponse & Hstatus); [right; left; reflexivity|].
  pose proof (callApi_result fetch this (T := string) path query h base
                              response Hbase Hresponse) as Hnull.
  apply Z.eqb_neq in Hstatus. rewrite Hstatus in Hnull.
  unfold result in Hnull. rewrite Hnull. cbn [or_else].
  rewrite Hparse. split; reflexivity.
Qed.

(** C6. [getCodeOwners] strips a leading [./] exactly once: for every
    project and branch, a path [./p] whose [p] has no leading [./] of its
    own behaves as [p] does (so [./OWNERS] as [OWNERS]), and for every [p]
    the file fetched for [./p] is [p] itself, so [././X] is fetched as
    [./X]. *)
Theorem getCodeOwners_strips_dot_slash_once projectID branch p h :
  (startsWith p "./" = false ->
   getCodeOwners fetch this parseCodeOwners projectID branch
                 (Some ("./" +:+ p)) h
   = getCodeOwners fetch this parseCodeOwners projectID branch (Some p) h)
  /\ (forall base,
         getBaseUrl (discoveryApi this) h "proxy" = Resolved base ->
         issued h (getCodeOwners fetch this parseCodeOwners projectID branch
                                 (Some ("./" +:+ p)) h)
         = [Discover "proxy";
            Fetch (request_url base (proxyPath this)
                     ("projects/" +:+ str projectID
                        +:+ "/repository/files/" +:+ encodeURI p +:+ "/raw")
                     [("ref", VStr (default "HEAD" branch))])]).
Proof.
  split.
  - intros Hp. rewrite getCodeOwners_dot_slash, getCodeOwners_cases by exact Hp.
    reflexivity.
  - intros base Hbase. rewrite getCodeOwners_dot_slash. cbn zeta.
    unfold issued. cbn [snd].
    exact (callApi_issued fetch this (T := string) _ _ h base Hbase).
Qed.

End Owners.

(** ** User lookup by handle *)

Section UserLookup.

Variable fetch : History -> string -> reply Response.
Context {json_objects : Json (list object)}.
Variable this : GitlabCIClient.

Abbreviation search_user username :=
  (callApi fetch this (T := list object) "users"
           [("username", VStr username)]).

(** [getUserDetail] on a handle without its leading [@]. *)
Lemma getUserDetail_cases username h :
  startsWith username "@" = false ->
  getUserDetail fetch this username h
  = match search_user username h with
    | (Fulfilled (Some (userDetail :: _)), h') => (Fulfilled userDetail, h')
    | (Fulfilled _, h') =>
        (Rejected (Error ("user " +:+ username +:+ " does not exist")), h')
    | (Rejected e, h') => (Rejected e, h')
    end.
Proof.
  intros Hu. unfold getUserDetail, bind, ret, throw. rewrite Hu.
  destruct (search_user username h) as [[[[|u l]|]|e] h']; reflexivity.
Qed.

(** With the leading [@] on, the search is for what follows it. *)
Lemma getUserDetail_at username h :
  getUserDetail fetch this ("@" +:+ username) h
  = match search_user username h with
    | (Fulfilled (Some (userDetail :: _)), h') => (Fulfilled userDetail, h')
    | (Fulfilled _, h') =>
        (Rejected (Error ("user " +:+ username +:+ " does not exist")), h')
    | (Rejected e, h') => (Rejected e, h')
    end.
Proof.
  unfold getUserDetail, bind, ret, throw.
  rewrite (startsWith_app "@" username).
  change (slice 1 ("@" +:+ username)) with username.
  destruct (search_user username h) as [[[[|u l]|]|e] h']; reflexivity.
Qed.

(** The name searched for: the handle, less one leading [@]. *)
Lemma getUserDetail_searched username :
  exists searched,
    searched = (if startsWith username "@" then slice 1 username
                else username)
    /\ forall h,
        getUserDetail fetch this username h
        = match search_user searched h with
          | (Fulfilled (Some (userDetail :: _)), h') =>
              (Fulfilled userDetail, h')
          | (Fulfilled _, h') =>
              (Rejected (Error ("user " +:+ searched +:+ " does not exist")),
               h')
          | (Rejected e, h') => (Rejected e, h')
          end.
Proof.
  eexists. split; [reflexivity|]. intros h.
  unfold getUserDetail, bind, ret, throw.
  destruct (search_user _ h) as [[[[|u l]|]|e] h']; reflexivity.
Qed.

(** C7. [getUserDetail] raises its not-found error (an [Error] saying
    that the user does not exist) if and only if the search by user name
    returns no candidate, be it absent or an empty list; it raises no
    other [Error] of its own; and when the search returns one candidate or
    more it returns the first. *)
Theorem getUserDetail_not_found_iff username h :
  let searched :=
    if startsWith username "@" then slice 1 username else username in
  ((exists message,
       result (getUserDetail fetch this username h)
       = Rejected (Error message))
   <-> result (search_user searched h) = Fulfilled None
       \/ result (search_user searched h) = Fulfilled (Some []))
  /\ (forall message,
         result (getUserDetail fetch this username h)
         = Rejected (Error message) ->
         message = "user " +:+ searched +:+ " does not exist")
  /\ (forall userDetail others,
         result (search_user searched h)
         = Fulfilled (Some (userDetail :: others)) ->
         result (getUserDetail fetch this username h)
         = Fulfilled userDetail).
Proof.
  destruct (getUserDetail_searched username) as (searched & -> & Hget).
  cbn zeta. rewrite Hget. unfold result.
  pose proof (callApi_no_Error fetch this (T := list object) "users"
                [("username",
                  VStr (if startsWith username "@" then slice 1 username
                        else username))] h) as Hno.
  unfold result in Hno.
  destruct (search_user _ h) as [[[[|u l]|]|e] h']; cbn [fst] in *.
  - split; [split; [auto | eauto] |].
    split; [intros m [= <-]; reflexivity | intros ? ? [=]].
  - split; [split; [intros [m [=]] | intros [[=] | [=]]] |].
    split; [intros m [=] | intros ? ? [= -> _]; reflexivity].
  - split; [split; [auto | eauto] |].
    split; [intros m [= <-]; reflexivity | intros ? ? [=]].
  - split; [split; [intros [m [= ->]]; destruct (Hno m eq_refl)
                   | intros [[=] | [=]]] |].
    split; [intros m [= ->]; destruct (Hno m eq_refl) | intros ? ? [=]].
Qed.

(** C8. [getUserDetail] strips one leading [@] before it searches: for
    every network, discovery service and history, a handle [@name] whose
    [name] has no [@] of its own in front makes the same requests and has
    the same outcome as [name] (so [@alice] as [alice]); and for every
    [name] the requests made for [@name] are those of the search for
    [name], no second [@] being removed. *)
Theorem getUserDetail_strips_at_once username h :
  (startsWith username "@" = false ->
   getUserDetail fetch this ("@" +:+ username) h
   = getUserDetail fetch this username h)
  /\ issued h (getUserDetail fetch this ("@" +:+ username) h)
     = issued h (search_user username h).
Proof.
  split.
  - intros Hu. rewrite getUserDetail_at, getUserDetail_cases by exact Hu.
    reflexivity.
  - rewrite getUserDetail_at. unfold issued.
    destruct (search_user username h) as [[[[|u l]|]|e] h']; reflexivity.
Qed.

End UserLookup.

(** ** Annotation with the project name *)

Lemma get_set_eq (o : object) k v : get (set o k v) k = v.
Proof. unfold get, set. rewrite lookup_insert_eq. reflexivity. Qed.

Lemma get_set_ne (o : object) k k' v : k <> k' -> get (set o k v) k' = get o k'.
Proof. intros Hk. unfold get, set. rewrite lookup_insert_ne by exact Hk. reflexivity. Qed.

Lemma annotated_map fetched projectObj :
  annotated fetched projectObj
    ((fun l => List.map (fun element =>
                 set element "project_name" (opt_get projectObj "name")) l)
       <$> fetched).
Proof.
  destruct fetched as [l|]; [|reflexivity].
  cbn. eexists. split; [reflexivity|].
  induction l as [|element l IH]; constructor; [|exact IH].
  split; [apply get_set_eq|]. split.
  - intros ->. apply get_set_eq.
  - intros k Hk. apply get_set_ne. congruence.
Qed.

Section Annotation.

Variable fetch : History -> string -> reply Response.
Context {json_objects : Json (list object)} {json_object : Json object}.
Variable this : GitlabCIClient.

(** C9. In [getPipelineSummary] and in [getIssuesSummary], once the list
    is fetched the parent project is fetched, and the call succeeds with
    the list in which every element has [project_name] set to the
    project's name, its other properties kept; when the project fetch
    returned absent, [project_name] is [undefined] on every element, and
    the call succeeds all the same. *)
Theorem project_name_annotation projectID projectId h :
  (forall pipelineObjects h1 projectObj h2,
      callApi fetch this (T := list object)
              ("projects/" +:+ str projectID +:+ "/pipelines") [] h
      = (Fulfilled pipelineObjects, h1) ->
      callApi fetch this (T := object) ("projects/" +:+ str projectID) [] h1
      = (Fulfilled projectObj, h2) ->
      exists data,
        getPipelineSummary fetch this projectID h
        = (Fulfilled {| getPipelinesData := data |}, h2)
        /\ annotated pipelineObjects projectObj data)
  /\ (forall issuesObject h1 projectObj h2,
         callApi fetch this (T := list object)
                 ("projects/" +:+ projectId +:+ "/issues") [] h
         = (Fulfilled issuesObject, h1) ->
         callApi fetch this (T := object) ("projects/" +:+ projectId) [] h1
         = (Fulfilled projectObj, h2) ->
         exists data,
           getIssuesSummary fetch this projectId h
           = (Fulfilled {| getIssuesData := data |}, h2)
           /\ annotated issuesObject projectObj data).
Proof.
  split.
  - intros pipelineObjects h1 projectObj h2 Hlist Hproject.
    unfold getPipelineSummary, bind, ret. rewrite Hlist, Hproject.
    eexists. split; [reflexivity|]. apply annotated_map.
  - intros issuesObject h1 projectObj h2 Hlist Hproject.
    unfold getIssuesSummary, bind, ret. rewrite Hlist, Hproject.
    eexists. split; [reflexivity|]. apply annotated_map.
Qed.

End Annotation.

(** ** The configured base URL *)

Lemma endsWith_app_char s c : endsWith (s +:+ String c EmptyString) c = true.
Proof.
  induction s as [|a s IH]; cbn; [apply Ascii.eqb_refl|].
  destruct s; exact IH.
Qed.

Lemma constructor_baseUrl_slash d b pp cop :
  endsWith (baseUrl (constructor d b pp cop)) "/" = true.
Proof.
  cbn [constructor baseUrl].
  destruct (endsWith (default "https://gitlab.com/" b) "/") eqn:Hends;
    [exact Hends|].
  apply endsWith_app_char.
Qed.

Section BaseUrl.

Variable fetch : History -> string -> reply Response.
Context {json_objects : Json (list object)} {json_object : Json object}
        {json_contributors : Json (list ContributorData)}
        {json_string : Json string}.
Variable parseCodeOwners : string -> list OwnerEntry.

(** C10. The configured [baseUrl], which the constructor makes end with
    [/], is used for no request: two clients that differ in [baseUrl]
    only behave alike in the executor and in every accessor, making the
    same requests and returning the same results, whatever the
    collaborators answer. *)
Theorem baseUrl_never_used (c1 c2 : GitlabCIClient) :
  discoveryApi c1 = discoveryApi c2 ->
  proxyPath c1 = proxyPath c2 ->
  codeOwnersPath c1 = codeOwnersPath c2 ->
  (forall d b pp cop, endsWith (baseUrl (constructor d b pp cop)) "/" = true)
  /\ (forall (T : Type) (json_T : Json T) path query h,
         callApi fetch c1 (T := T) path query h
         = callApi fetch c2 (T := T) path query h)
  /\ (forall projectID h,
         getPipelineSummary fetch c1 projectID h
         = getPipelineSummary fetch c2 projectID h)
  /\ (forall projectId h,
         getIssuesSummary fetch c1 projectId h
         = getIssuesSummary fetch c2 projectId h)
  /\ (forall projectID h,
         getProjectName fetch c1 projectID h
         = getProjectName fetch c2 projectID h)
  /\ (forall projectID h,
         getMergeRequestsSummary fetch c1 projectID h
         = getMergeRequestsSummary fetch c2 projectID h)
  /\ (forall projectID count h,
         getMergeRequestsStatusSummary fetch c1 projectID count h
         = getMergeRequestsStatusSummary fetch c2 projectID count h)
  /\ (forall projectID h,
         getContributorsSummary fetch c1 projectID h
         = getContributorsSummary fetch c2 projectID h)
  /\ (forall projectID h,
         getLanguagesSummary fetch c1 projectID h
         = getLanguagesSummary fetch c2 projectID h)
  /\ (forall projectSlug h,
         getProjectDetails fetch c1 projectSlug h
         = getProjectDetails fetch c2 projectSlug h)
  /\ (forall projectID pipelineID h,
         retryPipelineBuild fetch c1 projectID pipelineID h
         = retryPipelineBuild fetch c2 projectID pipelineID h)
  /\ (forall projectID branch filePath h,
         getCodeOwners fetch c1 parseCodeOwners projectID branch filePath h
         = getCodeOwners fetch c2 parseCodeOwners projectID branch filePath h)
  /\ (forall username h,
         getUserDetail fetch c1 username h
         = getUserDetail fetch c2 username h).
Proof.
  destruct c1 as [d1 b1 pp1 cop1], c2 as [d2 b2 pp2 cop2]. cbn.
  intros -> -> ->.
  split; [exact constructor_baseUrl_slash|].
  repeat split; intros; reflexivity.
Qed.

End BaseUrl.

(** * Examples *)

(** ** The executor on the stubs *)


(** Against C2 as stated: [getMergeRequestsStatusSummary] without a count
    asks for [per_page=undefined]; the specification's rule would send no
    parameter. *)
Lemma undefined_per_page_is_sent :
  issued [] (getMergeRequestsStatusSummary
               (stub_fetch []) (json_objects := stub_json []) stub_client
               (Some "7") None [])
  = [Discover "proxy";
     Fetch "http://localhost:7007/api/proxy/gitlabci/projects/7/merge_requests?per_page=undefined"]
  /\ toString (URLSearchParams (omit_undefined [("per_page", VUndefined)]))
     = ""
  /\ toString (URLSearchParams [("per_page", VUndefined)])
     <> toString (URLSearchParams (omit_undefined [("per_page", VUndefined)])).
Proof.
  split; [vm_compute; reflexivity|]. split; [reflexivity|].
  vm_compute. discriminate.
Qed.

Lemma callApi_query_sent_whole_witness :
  exists search : string,
    issued [] (callApi (stub_fetch []) stub_client (T := list object)
                       (json_T := stub_json []) "projects/7/merge_requests"
                       [("per_page", VUndefined); ("sort", VStr "desc");
                        ("page", VNum 2)] [])
    = [Discover "proxy";
       Fetch (("http://localhost:7007/api/proxy" +:+ "/gitlabci") +:+ "/"
                +:+ "projects/7/merge_requests" +:+ "?" +:+ search)]
    /\ List.map fst (urlencoded_parse search) = ["per_page"; "sort"; "page"]
    /\ urlencoded_parse search !! 0%nat = Some ("per_page", "undefined")
    /\ urlencoded_parse search !! 2%nat = Some ("page", "2").
Proof.
  destruct (callApi_query_sent_whole
              (stub_fetch []) stub_client (T := list object)
              (json_T := stub_json []) "projects/7/merge_requests"
              [("per_page", VUndefined); ("sort", VStr "desc");
               ("page", VNum 2)] []
              "http://localhost:7007/api/proxy" eq_refl)
    as (search & Hissued & Hnames & _ & Hentry).
  exists search. split; [exact Hissued|]. split; [exact Hnames|]. split.
  - exact (Hentry 0%nat "per_page" VUndefined eq_refl eq_refl).
  - exact (Hentry 2%nat "page" (VNum 2) eq_refl eq_refl).
Defined.

(** ** The enrichment on the stubs *)

(** Against C1 as stated: of two profiles named as the contributor, the
    avatar of the second is kept, where the specification's rule takes that
    of the first. *)
Lemma enrichment_first_match_fails :
  result (getUserProfilesData fetch_two_anns
            (json_contributors := json_two_anns) stub_client (Some [ann]) [])
  = Fulfilled
      (Some [set_avatar_url ann
               (Some "https://gitlab.example.org/uploads/2/avatar.png")])
  /\ first_match_avatar ann two_anns
     = Some "https://gitlab.example.org/uploads/1/avatar.png"
  /\ Some "https://gitlab.example.org/uploads/2/avatar.png"
     <> first_match_avatar ann two_anns.
Proof.
  split; [vm_compute; reflexivity|]. split; [reflexivity|].
  vm_compute. discriminate.
Qed.

Lemma enrichment_takes_last_match_witness :
  Forall2 (fun c c' =>
             exists userProfile hi,
               result (callApi fetch_two_anns stub_client
                         (T := list ContributorData)
                         (json_T := json_two_anns) "users"
                         [("search", VStr (email c))] hi)
               = Fulfilled userProfile
               /\ c' = match userProfile with
                       | Some userProfile =>
                           match last_match c userProfile with
                           | Some p => set_avatar_url c (avatar_url p)
                           | None => c
                           end
                       | None => c
                       end)
          [ann]
          [set_avatar_url ann
             (Some "https://gitlab.example.org/uploads/2/avatar.png")].
Proof.
  apply (enrichment_takes_last_match
           fetch_two_anns (json_contributors := json_two_anns) stub_client
           [ann] []
           [set_avatar_url ann
              (Some "https://gitlab.example.org/uploads/2/avatar.png")]
           [Discover "proxy"; Fetch (users_search "ann%40example.org")]).
  vm_compute. reflexivity.
Defined.



(** ** Ownership resolution on the stubs *)

Lemma getCodeOwners_no_content_witness :
  result (getCodeOwners (stub_fetch []) (json_string := stub_json [])
                        stub_client stub_parseCodeOwners (Some "7") None None
                        [])
  = Fulfilled {| getCodeOwners_ := stub_parseCodeOwners "" |}
  /\ result (getCodeOwners (stub_fetch []) (json_string := stub_json [])
                           stub_client stub_parseCodeOwners (Some "7") None
                           None [])
     = Fulfilled {| getCodeOwners_ := [] |}.
Proof.
  apply (getCodeOwners_no_content
           (stub_fetch []) (json_string := stub_json []) stub_client
           stub_parseCodeOwners (Some "7") None None []
           "http://localhost:7007/api/proxy").
  - reflexivity.
  - intros url _. exists {| status := 404; body := "" |}.
    split; [reflexivity | simpl; lia].
  - reflexivity.
Defined.

Lemma getCodeOwners_strips_dot_slash_once_witness :
  getCodeOwners (stub_fetch []) (json_string := stub_json []) stub_client
                stub_parseCodeOwners (Some "7") None (Some "./OWNERS") []
  = getCodeOwners (stub_fetch []) (json_string := stub_json []) stub_client
                  stub_parseCodeOwners (Some "7") None (Some "OWNERS") []
  /\ issued [] (getCodeOwners (stub_fetch []) (json_string := stub_json [])
                  stub_client stub_parseCodeOwners (Some "7") None
                  (Some "././X") [])
     = [Discover "proxy";
        Fetch "http://localhost:7007/api/proxy/gitlabci/projects/7/repository/files/./X/raw?ref=HEAD"].
Proof.
  split.
  - apply (proj1 (getCodeOwners_strips_dot_slash_once
                    (stub_fetch []) (json_string := stub_json []) stub_client
                    stub_parseCodeOwners (Some "7") None "OWNERS" [])).
    reflexivity.
  - apply (proj2 (getCodeOwners_strips_dot_slash_once
                    (stub_fetch []) (json_string := stub_json []) stub_client
                    stub_parseCodeOwners (Some "7") None "./X" [])
                 "http://localhost:7007/api/proxy").
    reflexivity.
Defined.

(** ** User lookup on the stubs *)

Lemma getUserDetail_not_found_iff_witness :
  exists message,
    result (getUserDetail fetch_no_user (json_objects := json_no_user)
                          stub_client "nobody" [])
    = Rejected (Error message).
Proof.
  apply (proj1 (getUserDetail_not_found_iff
                  fetch_no_user (json_objects := json_no_user) stub_client
                  "nobody" [])).
  right. vm_compute. reflexivity.
Defined.

Lemma getUserDetail_strips_at_once_witness :
  getUserDetail fetch_no_user (json_objects := json_no_user) stub_client
                "@alice" []
  = getUserDetail fetch_no_user (json_objects := json_no_user) stub_client
                  "alice" [].
Proof.
  apply (proj1 (getUserDetail_strips_at_once
                  fetch_no_user (json_objects := json_no_user) stub_client
                  "alice" [])).
  reflexivity.
Defined.

(** ** Annotation on the stubs *)

Lemma project_name_annotation_witness :
  exists data,
    getPipelineSummary fetch_project (json_objects := json_pipelines)
                       (json_object := json_project) stub_client (Some "7") []
    = (Fulfilled {| getPipelinesData := data |},
       [Discover "proxy";
        Fetch "http://localhost:7007/api/proxy/gitlabci/projects/7/pipelines?";
        Discover "proxy";
        Fetch "http://localhost:7007/api/proxy/gitlabci/projects/7?"])
    /\ annotated (Some [a_pipeline]) (Some (<["name" := VStr "demo"]> ∅)) data.
Proof.
  apply (proj1 (project_name_annotation
                  fetch_project (json_objects := json_pipelines)
                  (json_object := json_project) stub_client (Some "7") "7" [])
               (Some [a_pipeline])
               [Discover "proxy";
                Fetch "http://localhost:7007/api/proxy/gitlabci/projects/7/pipelines?"]).
  - vm_compute. reflexivity.
  - vm_compute. reflexivity.
Defined.

(** ** Two base URLs *)

Lemma baseUrl_never_used_witness :
  baseUrl (constructor stub_discovery (Some "https://gitlab.example.org")
                       None None)
  <> baseUrl (constructor stub_discovery (Some "https://example.com/") None
                          None)
  /\ forall h,
      getPipelineSummary fetch_project (json_objects := json_pipelines)
        (json_object := json_project)
        (constructor stub_discovery (Some "https://gitlab.example.org") None
                     None) (Some "7") h
      = getPipelineSummary fetch_project (json_objects := json_pipelines)
          (json_object := json_project)
          (constructor stub_discovery (Some "https://example.com/") None None)
          (Some "7") h.
Proof.
  split; [vm_compute; discriminate|].
  destruct (baseUrl_never_used
              fetch_project (json_objects := json_pipelines)
              (json_object := json_project) (json_contributors := json_bob)
              (json_string := stub_json []) stub_parseCodeOwners
              (constructor stub_discovery (Some "https://gitlab.example.org")
                           None None)
              (constructor stub_discovery (Some "https://example.com/") None
                           None) eq_refl eq_refl eq_refl)
    as (_ & _ & Hpipelines & _).
  exact (Hpipelines (Some "7")).
Defined.

(** The constructor gives the same base to ["https://example.com"] and to
    ["https://example.com/"]. *)
Lemma constructor_trailing_slash :
  constructor stub_discovery (Some "https://example.com") None None
  = constructor stub_discovery (Some "https://example.com/") None None.
Proof. reflexivity. Qed.


(** * Further properties of the client *)

(** ** Failures of the collaborators *)

Section Failures.

Variable fetch : History -> string -> reply Response.
Context {json_objects : Json (list object)} {json_object : Json object}
        {json_contributors : Json (list ContributorData)}
        {json_string : Json string}.
Variable this : GitlabCIClient.
Variable parseCodeOwners : string -> list OwnerEntry.

Lemma callApi_discovery_failed {T : Type} {json_T : Json T} path query h
    reason :
  getBaseUrl (discoveryApi this) h "proxy" = Failed reason ->
  callApi fetch this (T := T) path query h
  = (Rejected (Rejection reason), h ++ [Discover "proxy"]).
Proof. intros H. rewrite callApi_cases, H. reflexivity. Qed.

Lemma callApi_fetch_failed {T : Type} {json_T : Json T} path query h base
    reason :
  getBaseUrl (discoveryApi this) h "proxy" = Resolved base ->
  (forall url, fetch (h ++ [Discover "proxy"]) url = Failed reason) ->
  callApi fetch this (T := T) path query h
  = (Rejected (Rejection reason),
     h ++ [Discover "proxy";
           Fetch (request_url base (proxyPath this) path query)]).
Proof. intros H Hf. rewrite callApi_cases, H. cbn zeta. rewrite Hf. reflexivity. Qed.

(** The accessors, unfolded down to their first call of the executor. *)
Ltac to_first_call :=
  unfold getPipelineSummary, getIssuesSummary, getProjectName,
    getMergeRequestsSummary, getMergeRequestsStatusSummary,
    getContributorsSummary, getLanguagesSummary, getProjectDetails,
    retryPipelineBuild, getCodeOwners, getUserDetail;
  unfold bind at 1.

(** X1. When the discovery service fails, every accessor is rejected with
    the reason of that failure, and nothing is fetched: the one request
    made is the discovery. *)
Theorem discovery_failure_propagates h reason :
  getBaseUrl (discoveryApi this) h "proxy" = Failed reason ->
  let rejected {A : Type} (r : outcome A * History) :=
    r = (Rejected (Rejection reason), h ++ [Discover "proxy"]) in
  (forall projectID, rejected (getPipelineSummary fetch this projectID h))
  /\ (forall projectId, rejected (getIssuesSummary fetch this projectId h))
  /\ (forall projectID, rejected (getProjectName fetch this projectID h))
  /\ (forall projectID,
         rejected (getMergeRequestsSummary fetch this projectID h))
  /\ (forall projectID count,
         rejected (getMergeRequestsStatusSummary fetch this projectID count h))
  /\ (forall projectID,
         rejected (getContributorsSummary fetch this projectID h))
  /\ (forall projectID, rejected (getLanguagesSummary fetch this projectID h))
  /\ (forall c projectSlug,
         rejected (getProjectDetails fetch this (Some (String c projectSlug)) h))
  /\ (forall projectID pipelineID,
         rejected (retryPipelineBuild fetch this projectID pipelineID h))
  /\ (forall projectID branch filePath,
         rejected (getCodeOwners fetch this parseCodeOwners projectID branch
                                 filePath h))
  /\ (forall username, rejected (getUserDetail fetch this username h)).
Proof.
  intros H rejected. unfold rejected.
  repeat split; intros; to_first_call;
    rewrite (callApi_discovery_failed _ _ h reason H); reflexivity.
Qed.

(** X2. When the proxy base is known and the network fails, every accessor
    is rejected with the reason of that failure after one discovery and one
    fetch; no accessor catches it or tries again. *)
Theorem transport_failure_propagates h base reason :
  getBaseUrl (discoveryApi this) h "proxy" = Resolved base ->
  (forall url, fetch (h ++ [Discover "proxy"]) url = Failed reason) ->
  let rejected {A : Type} (r : outcome A * History) :=
    exists url,
      r = (Rejected (Rejection reason), h ++ [Discover "proxy"; Fetch url]) in
  (forall projectID, rejected (getPipelineSummary fetch this projectID h))
  /\ (forall projectId, rejected (getIssuesSummary fetch this projectId h))
  /\ (forall projectID, rejected (getProjectName fetch this projectID h))
  /\ (forall projectID,
         rejected (getMergeRequestsSummary fetch this projectID h))
  /\ (forall projectID count,
         rejected (getMergeRequestsStatusSummary fetch this projectID count h))
  /\ (forall projectID,
         rejected (getContributorsSummary fetch this projectID h))
  /\ (forall projectID, rejected (getLanguagesSummary fetch this projectID h))
  /\ (forall c projectSlug,
         rejected (getProjectDetails fetch this (Some (String c projectSlug)) h))
  /\ (forall projectID pipelineID,
         rejected (retryPipelineBuild fetch this projectID pipelineID h))
  /\ (forall projectID branch filePath,
         rejected (getCodeOwners fetch this parseCodeOwners projectID branch
                                 filePath h))
  /\ (forall username, rejected (getUserDetail fetch this username h)).
Proof.
  intros H Hf rejected. unfold rejected.
  repeat split; intros; to_first_call;
    rewrite (callApi_fetch_failed _ _ h base reason H Hf);
    eexists; reflexivity.
Qed.

End Failures.

(** ** A server that answers no request with 200 *)

Section NoData.

Variable fetch : History -> string -> reply Response.
Context {json_objects : Json (list object)} {json_object : Json object}
        {json_contributors : Json (list ContributorData)}
        {json_string : Json string}.
Variable this : GitlabCIClient.
Variable parseCodeOwners : string -> list OwnerEntry.

Hypothesis discovered :
  forall h, exists base, getBaseUrl (discoveryApi this) h "proxy" = Resolved base.
Hypothesis no_200 :
  forall h url, exists response,
    fetch h url = Resolved response /\ status response <> 200.

Lemma callApi_no_data {T : Type} {json_T : Json T} path query h :
  exists h', callApi fetch this (T := T) path query h = (Fulfilled None, h').
Proof.
  destruct (discovered h) as [base Hbase].
  destruct (no_200 (h ++ [Discover "proxy"])
                   (request_url base (proxyPath this) path query))
    as (response & Hresponse & Hstatus).
  rewrite callApi_cases, Hbase. cbn zeta. rewrite Hresponse.
  apply Z.eqb_neq in Hstatus. rewrite Hstatus. eexists. reflexivity.
Qed.

Ltac no_data :=
  match goal with
  | |- context [callApi fetch this (T := ?T) ?path ?query ?h] =>
      let h' := fresh "h" in
      let H := fresh "H" in
      destruct (callApi_no_data (T := T) path query h) as [h' H];
      rewrite H; cbn [fst snd]
  end.

(** X3. When the proxy base is always found and no request is answered with
    status 200, no accessor throws but [getUserDetail]: each returns its
    result with the data absent ([getProjectName] and a [getProjectDetails]
    without slug return [undefined], [getCodeOwners] what the parser makes of
    the empty string), and [getUserDetail] throws its not-found error. *)
Theorem non_200_gives_absent_data h :
  (forall projectID,
      result (getPipelineSummary fetch this projectID h)
      = Fulfilled {| getPipelinesData := None |})
  /\ (forall projectId,
         result (getIssuesSummary fetch this projectId h)
         = Fulfilled {| getIssuesData := None |})
  /\ (forall projectID,
         result (getProjectName fetch this projectID h) = Fulfilled VUndefined)
  /\ (forall projectID,
         result (getMergeRequestsSummary fetch this projectID h)
         = Fulfilled {| getMergeRequestsData := None |})
  /\ (forall projectID count,
         result (getMergeRequestsStatusSummary fetch this projectID count h)
         = Fulfilled {| getMergeRequestsStatusData := None |})
  /\ (forall projectID,
         result (getContributorsSummary fetch this projectID h)
         = Fulfilled {| getContributorsData := None |})
  /\ (forall projectID,
         result (getLanguagesSummary fetch this projectID h)
         = Fulfilled {| getLanguagesData := None |})
  /\ (forall projectSlug,
         result (getProjectDetails fetch this projectSlug h)
         = Fulfilled match projectSlug with
                     | Some (String _ _) => VNull
                     | _ => VUndefined
                     end)
  /\ (forall projectID pipelineID,
         result (retryPipelineBuild fetch this projectID pipelineID h)
         = Fulfilled None)
  /\ (forall projectID branch filePath,
         result (getCodeOwners fetch this parseCodeOwners projectID branch
                               filePath h)
         = Fulfilled {| getCodeOwners_ := parseCodeOwners "" |})
  /\ (forall username,
         result (getUserDetail fetch this username h)
         = Rejected (Error ("user "
                              +:+ (if startsWith username "@"
                                   then slice 1 username else username)
                              +:+ " does not exist"))).
Proof.
  unfold result.
  repeat split; intros;
    unfold getPipelineSummary, getIssuesSummary, getProjectName,
      getMergeRequestsSummary, getMergeRequestsStatusSummary,
      getContributorsSummary, getLanguagesSummary, retryPipelineBuild,
      getCodeOwners, getUserDetail, bind;
    try (no_data; try no_data; reflexivity).
  unfold getProjectDetails. destruct projectSlug as [[|c s]|]; try reflexivity.
  unfold bind. no_data. reflexivity.
Qed.

End NoData.

(** ** More on the enrichment *)

Lemma set_avatar_url_same c : set_avatar_url c (avatar_url c) = c.
Proof. destruct c; reflexivity. Qed.

Lemma enriched_keeps_fields c userProfile :
  enriched c userProfile
  = set_avatar_url c (avatar_url (enriched c userProfile)).
Proof.
  unfold enriched. destruct userProfile as [ps|];
    [destruct (last_match c ps)|]; cbn; auto using set_avatar_url_same.
Qed.

Lemma email_enriched c userProfile : email (enriched c userProfile) = email c.
Proof. rewrite enriched_keeps_fields. reflexivity. Qed.

Lemma last_match_enriched c userProfile ps :
  last_match (enriched c userProfile) ps = last_match c ps.
Proof.
  unfold last_match. f_equal. apply List.filter_ext. intros p.
  apply same_name_enriched.
Qed.

(** Enriching twice from the same search result is enriching once. *)
Lemma enriched_twice c userProfile :
  enriched (enriched c userProfile) userProfile = enriched c userProfile.
Proof.
  destruct userProfile as [ps|]; [|reflexivity].
  unfold enriched at 1. rewrite last_match_enriched.
  unfold enriched. destruct (last_match c ps); reflexivity.
Qed.

Section EnrichmentMore.

Variable fetch : History -> string -> reply Response.
Context {json_contributors : Json (list ContributorData)}.
Variable this : GitlabCIClient.

Abbreviation search_by email :=
  (callApi fetch this (T := list ContributorData) "users"
           [("search", VStr email)]).

(** The requests of [enrich_each] when the proxy base is always [base]. *)
Lemma enrich_each_history base cs h cs' h' :
  (forall hi, getBaseUrl (discoveryApi this) hi "proxy" = Resolved base) ->
  enrich_each fetch this cs h = (Fulfilled cs', h') ->
  h' = h ++ flat_map (fun c =>
                        [Discover "proxy";
                         Fetch (request_url base (proxyPath this) "users"
                                            [("search", VStr (email c))])]) cs.
Proof.
  intros Hbase. revert h cs' h'.
  induction cs as [|c cs IH]; intros h cs' h' Heq.
  - cbn in Heq. injection Heq as _ <-. cbn. rewrite app_nil_r. reflexivity.
  - cbn [enrich_each] in Heq. unfold bind at 1 in Heq.
    rewrite callApi_cases, Hbase in Heq. cbn zeta in Heq.
    match type of Heq with
    | context [(?o, h ++ ?evs)] => destruct o as [userProfile|e]
    end; [|discriminate].
    unfold bind at 1 in Heq.
    destruct (enrich_each fetch this cs _) as [[l|e] h2] eqn:Hrest;
      [|discriminate].
    cbn in Heq. injection Heq as _ <-.
    rewrite (IH _ _ _ Hrest). cbn [flat_map]. rewrite <- app_assoc.
    reflexivity.
Qed.

(** X4. With the proxy base always [base], an enrichment that returns has
    made, for each contributor in list order, one discovery and one search by
    that contributor's e-mail, and no other request: searches are neither
    batched nor shared between contributors of the same e-mail. *)
Theorem enrichment_requests base cs h r h' :
  (forall hi, getBaseUrl (discoveryApi this) hi "proxy" = Resolved base) ->
  getUserProfilesData fetch this (Some cs) h = (Fulfilled r, h') ->
  issued h (getUserProfilesData fetch this (Some cs) h)
  = flat_map (fun c =>
                [Discover "proxy";
                 Fetch (request_url base (proxyPath this) "users"
                                    [("search", VStr (email c))])]) cs.
Proof.
  intros Hbase Heq. unfold issued. rewrite Heq. cbn [snd].
  rewrite getUserProfilesData_each in Heq. unfold bind, ret in Heq.
  destruct (enrich_each fetch this cs h) as [[l|e] h1] eqn:Heach;
    [|discriminate].
  injection Heq as _ <-.
  rewrite (enrich_each_history base cs h l h1 Hbase Heach).
  apply drop_app_length.
Qed.

(** X5. An enrichment that returns gives back the contributors it was
    given, as many and in the same order, each with its name, e-mail and
    counts untouched: nothing but [avatar_url] can differ. *)
Theorem enrichment_changes_avatar_only cs h cs' h' :
  getUserProfilesData fetch this (Some cs) h = (Fulfilled (Some cs'), h') ->
  length cs' = length cs
  /\ Forall2 (fun c c' => c' = set_avatar_url c (avatar_url c')) cs cs'.
Proof.
  intros Heq. rewrite getUserProfilesData_each in Heq. unfold bind, ret in Heq.
  destruct (enrich_each fetch this cs h) as [[l|e] h1] eqn:Heach;
    [|discriminate].
  injection Heq as <- _.
  pose proof (enrich_each_fulfilled fetch this cs h l h1 Heach) as Hall.
  split; [symmetry; exact (Forall2_length _ _ _ Hall)|].
  eapply Forall2_impl; [exact Hall|].
  intros c c' (userProfile & hi & _ & ->). apply enriched_keeps_fields.
Qed.

(** What [enrich_each] returns when every search is answered by e-mail. *)
Lemma enrich_each_pointwise answer cs h :
  (forall c hi, In c cs ->
                result (search_by (email c) hi) = Fulfilled (answer (email c))) ->
  result (enrich_each fetch this cs h)
  = Fulfilled (List.map (fun c => enriched c (answer (email c))) cs).
Proof.
  revert h. induction cs as [|c cs IH]; intros h Hall; [reflexivity|].
  cbn [enrich_each List.map]. unfold result, bind at 1.
  pose proof (Hall c h (or_introl eq_refl)) as Hc. unfold result in Hc.
  destruct (search_by (email c) h) as [o h1]. cbn [fst] in Hc. subst o.
  unfold bind.
  pose proof (IH h1 (fun c0 hi Hin => Hall c0 hi (or_intror Hin))) as Hrest.
  unfold result in Hrest.
  destruct (enrich_each fetch this cs h1) as [o h2]. cbn [fst] in Hrest.
  subst o. reflexivity.
Qed.

Lemma getUserProfilesData_pointwise answer cs h :
  (forall c hi, In c cs ->
                result (search_by (email c) hi) = Fulfilled (answer (email c))) ->
  result (getUserProfilesData fetch this (Some cs) h)
  = Fulfilled (Some (List.map (fun c => enriched c (answer (email c))) cs)).
Proof.
  intros Hall. pose proof (enrich_each_pointwise answer cs h Hall) as Heach.
  rewrite getUserProfilesData_each. unfold result, bind, ret in *.
  destruct (enrich_each fetch this cs h) as [o h1]. cbn [fst] in Heach.
  subst o. reflexivity.
Qed.

(** X6. When the search by a contributor's e-mail returns the same answer
    whenever it is made, the enrichment returns the list in which each
    contributor is enriched from the answer to its own e-mail: what one
    contributor becomes depends neither on the other contributors nor on its
    place in the list, and enriching the list in another order gives the
    same contributors in that order. *)
Theorem enrichment_pointwise answer cs h :
  (forall c hi, In c cs ->
                result (search_by (email c) hi) = Fulfilled (answer (email c))) ->
  result (getUserProfilesData fetch this (Some cs) h)
  = Fulfilled (Some (List.map (fun c => enriched c (answer (email c))) cs))
  /\ forall cs2 h2,
      Permutation cs cs2 ->
      exists l l2,
        result (getUserProfilesData fetch this (Some cs) h)
        = Fulfilled (Some l)
        /\ result (getUserProfilesData fetch this (Some cs2) h2)
           = Fulfilled (Some l2)
        /\ Permutation l l2.
Proof.
  intros Hall. split; [exact (getUserProfilesData_pointwise answer cs h Hall)|].
  intros cs2 h2 Hperm. eexists _, _.
  split; [exact (getUserProfilesData_pointwise answer cs h Hall)|].
  split.
  - apply (getUserProfilesData_pointwise answer cs2 h2).
    intros c hi Hin. apply Hall.
    apply list_elem_of_In. rewrite Hperm. apply list_elem_of_In. exact Hin.
  - apply Permutation_map. exact Hperm.
Qed.

(** X7. Under the same condition the enrichment is idempotent: enriching
    the list it returned returns that list again. *)
Theorem enrichment_idempotent answer cs h h2 :
  (forall c hi, In c cs ->
                result (search_by (email c) hi) = Fulfilled (answer (email c))) ->
  exists cs',
    result (getUserProfilesData fetch this (Some cs) h) = Fulfilled (Some cs')
    /\ result (getUserProfilesData fetch this (Some cs') h2)
       = Fulfilled (Some cs').
Proof.
  intros Hall. eexists. split; [exact (getUserProfilesData_pointwise answer cs h Hall)|].
  rewrite (getUserProfilesData_pointwise answer _ h2).
  - rewrite List.map_map. do 2 f_equal. apply List.map_ext. intros c.
    rewrite email_enriched. apply enriched_twice.
  - intros c' hi Hin. apply in_map_iff in Hin as (c & <- & Hin).
    rewrite email_enriched. apply Hall. exact Hin.
Qed.

(** X8. Without a contributor list the enrichment makes no request:
    [getContributorsSummary], when the request for the contributors is not
    answered with status 200, returns absent data after that one request and
    searches for nobody. *)
Theorem getContributorsSummary_without_list projectID h base response :
  getBaseUrl (discoveryApi this) h "proxy" = Resolved base ->
  fetch (h ++ [Discover "proxy"])
        (request_url base (proxyPath this)
           ("projects/" +:+ str projectID +:+ "/repository/contributors")
           [("sort", VStr "desc")]) = Resolved response ->
  status response <> 200 ->
  getContributorsSummary fetch this projectID h
  = (Fulfilled {| getContributorsData := None |},
     h ++ [Discover "proxy";
           Fetch (request_url base (proxyPath this)
                    ("projects/" +:+ str projectID
                       +:+ "/repository/contributors")
                    [("sort", VStr "desc")])]).
Proof.
  intros Hbase Hresponse Hstatus. unfold getContributorsSummary, bind at 1.
  rewrite callApi_cases, Hbase. cbn zeta. rewrite Hresponse.
  apply Z.eqb_neq in Hstatus. rewrite Hstatus. reflexivity.
Qed.

End EnrichmentMore.

(** ** What reaches the URL *)

Lemma percent_decode_encoded_byte c t :
  percent_decode (percent_encode_byte c +:+ t) = String c (percent_decode t).
Proof. destruct c as [[] [] [] [] [] [] [] []]; reflexivity. Qed.

Lemma percent_decode_plain c t :
  Ascii.eqb c "%" = false ->
  percent_decode (String c t) = String c (percent_decode t).
Proof. intros Hc. cbn [percent_decode]. rewrite Hc. reflexivity. Qed.

(** Percent-decoding undoes percent-encoding, whatever is left unescaped, as
    long as [%] itself is escaped. *)
Lemma percent_decode_encode unescaped s :
  unescaped "%"%char = false ->
  percent_decode (percent_encode unescaped s) = s.
Proof.
  intros Hpercent. induction s as [|c s IH]; [reflexivity|].
  cbn [percent_encode]. destruct (unescaped c) eqn:Hc.
  - change (String c EmptyString +:+ percent_encode unescaped s)
      with (String c (percent_encode unescaped s)).
    rewrite percent_decode_plain, IH; [reflexivity|].
    destruct (Ascii.eqb_spec c "%"); [congruence|reflexivity].
  - rewrite percent_decode_encoded_byte, IH. reflexivity.
Qed.

Lemma encodeURIComponent_byte_clean c sep :
  sep = "/"%char \/ sep = "?"%char \/ sep = "#"%char ->
  char_in sep (if is_alnum c || char_in c "-_.!~*'()"
               then String c EmptyString else percent_encode_byte c) = false.
Proof.
  intros [-> | [-> | ->]]; destruct c as [[] [] [] [] [] [] [] []];
    reflexivity.
Qed.

Lemma encodeURIComponent_clean s sep :
  sep = "/"%char \/ sep = "?"%char \/ sep = "#"%char ->
  char_in sep (encodeURIComponent s) = false.
Proof.
  intros Hsep. unfold encodeURIComponent.
  induction s as [|c s IH]; [reflexivity|].
  cbn [percent_encode]. rewrite char_in_app, IH.
  rewrite (encodeURIComponent_byte_clean c sep Hsep). reflexivity.
Qed.

Lemma encodeURI_byte_keeps c sep :
  sep = "/"%char \/ sep = "?"%char \/ sep = "#"%char ->
  char_in sep (if is_alnum c || char_in c ";/?:@&=+$,-_.!~*'()#"
               then String c EmptyString else percent_encode_byte c)
  = Ascii.eqb c sep.
Proof.
  intros [-> | [-> | ->]]; destruct c as [[] [] [] [] [] [] [] []];
    reflexivity.
Qed.

Lemma encodeURI_keeps s sep :
  sep = "/"%char \/ sep = "?"%char \/ sep = "#"%char ->
  char_in sep (encodeURI s) = char_in sep s.
Proof.
  intros Hsep. unfold encodeURI.
  induction s as [|c s IH]; [reflexivity|].
  cbn [percent_encode]. rewrite char_in_app, IH.
  rewrite (encodeURI_byte_keeps c sep Hsep). reflexivity.
Qed.

(** X11. The query string of a set of parameters tells the parameters: two
    lists of pairs with the same query string are the same list, so no name
    or value, whatever characters it holds, can pass for another parameter;
    in particular two queries that the executor sends alike have the same
    names and the same value texts, in the same order. *)
Theorem toString_injective params1 params2 :
  toString params1 = toString params2 -> params1 = params2.
Proof.
  intros Heq. rewrite <- (urlencoded_parse_toString params1), Heq.
  apply urlencoded_parse_toString.
Qed.

Section Paths.

Variable fetch : History -> string -> reply Response.
Context {json_object : Json object} {json_string : Json string}.
Variable this : GitlabCIClient.
Variable parseCodeOwners : string -> list OwnerEntry.

(** X9. [getProjectDetails] without a slug, or with the empty one, makes no
    request and returns [undefined].  With a slug, once the proxy base is
    known, it asks for [projects/] followed by one path segment: the segment
    holds no [/], [?] or [#], and percent-decoding it gives the slug back. *)
Theorem getProjectDetails_slug_segment projectSlug h :
  match projectSlug with
  | None | Some EmptyString =>
      getProjectDetails fetch this projectSlug h = (Fulfilled VUndefined, h)
  | Some slug =>
      forall base,
        getBaseUrl (discoveryApi this) h "proxy" = Resolved base ->
        exists segment,
          issued h (getProjectDetails fetch this projectSlug h)
          = [Discover "proxy";
             Fetch (request_url base (proxyPath this)
                                ("projects/" +:+ segment) [])]
          /\ char_in "/" segment = false
          /\ char_in "?" segment = false
          /\ char_in "#" segment = false
          /\ percent_decode segment = slug
  end.
Proof.
  destruct projectSlug as [[|c slug]|]; try reflexivity.
  intros base Hbase. exists (encodeURIComponent (String c slug)).
  split.
  - unfold getProjectDetails, bind, issued.
    pose proof (callApi_issued fetch this (T := object)
                  ("projects/" +:+ encodeURIComponent (String c slug)) [] h
                  base Hbase) as Hissued.
    unfold issued in Hissued.
    destruct (callApi fetch this _ _ h) as [[r|e] h']; exact Hissued.
  - rewrite !encodeURIComponent_clean by auto.
    repeat split. apply percent_decode_encode. reflexivity.
Qed.

(** X10. [getCodeOwners], once the proxy base is known, asks for the file
    path less its leading [./] in percent-encoded form: percent-decoding
    gives that path back, and its [/], [?] and [#] are sent as they are, not
    escaped (unlike the slug of [getProjectDetails]). *)
Theorem getCodeOwners_path_sent projectID branch filePath h base :
  getBaseUrl (discoveryApi this) h "proxy" = Resolved base ->
  let path :=
    if startsWith filePath "./" then slice 2 filePath else filePath in
  exists sent,
    issued h (getCodeOwners fetch this parseCodeOwners projectID branch
                            (Some filePath) h)
    = [Discover "proxy";
       Fetch (request_url base (proxyPath this)
                ("projects/" +:+ str projectID +:+ "/repository/files/"
                   +:+ sent +:+ "/raw")
                [("ref", VStr (default "HEAD" branch))])]
    /\ percent_decode sent = path
    /\ (forall sep,
           sep = "/"%char \/ sep = "?"%char \/ sep = "#"%char ->
           char_in sep sent = char_in sep path).
Proof.
  intros Hbase path. exists (encodeURI path). split; [|split].
  - unfold getCodeOwners, bind, issued. cbn [default from_option id].
    fold path.
    pose proof (callApi_issued fetch this (T := string)
                  ("projects/" +:+ str projectID +:+ "/repository/files/"
                     +:+ encodeURI path +:+ "/raw")
                  [("ref", VStr (default "HEAD" branch))] h base Hbase)
      as Hissued.
    unfold issued in Hissued.
    destruct (callApi fetch this _ _ h) as [[r|e] h']; exact Hissued.
  - apply percent_decode_encode. reflexivity.
  - intros sep Hsep. apply encodeURI_keeps. exact Hsep.
Qed.

(** X14. [getCodeOwners] does not fall back to the empty string when the
    file is there but its body cannot be read: on a response of status 200
    whose body the reader rejects, the call is rejected with the reader's
    reason. *)
Theorem getCodeOwners_unreadable_body projectID branch filePath h base reason :
  getBaseUrl (discoveryApi this) h "proxy" = Resolved base ->
  (forall url,
      In (Fetch url)
         (issued h (getCodeOwners fetch this parseCodeOwners projectID branch
                                  filePath h)) ->
      exists response,
        fetch (h ++ [Discover "proxy"]) url = Resolved response
        /\ status response = 200
        /\ json (T := string) response = Failed reason) ->
  result (getCodeOwners fetch this parseCodeOwners projectID branch filePath h)
  = Rejected (Rejection reason).
Proof.
  intros Hbase Hfetch.
  destruct (getCodeOwners_one_call fetch this parseCodeOwners projectID branch
                                   filePath h) as (path & query & Heq).
  rewrite Heq in *. clear Heq. unfold result, issued in *. cbn [fst snd] in *.
  pose proof (callApi_issued fetch this (T := string) path query h base
                             Hbase) as Hissued.
  unfold issued in Hissued. rewrite Hissued in Hfetch.
  destruct (Hfetch (request_url base (proxyPath this) path query))
    as (response & Hresponse & Hstatus & Hjson); [right; left; reflexivity|].
  pose proof (callApi_result fetch this (T := string) path query h base
                             response Hbase Hresponse) as Hres.
  rewrite Hstatus, Hjson in Hres. unfold result in Hres. rewrite Hres.
  reflexivity.
Qed.

End Paths.

(** ** The project name, fetched twice *)

Section ProjectName.

Variable fetch : History -> string -> reply Response.
Context {json_objects : Json (list object)} {json_object : Json object}.
Variable this : GitlabCIClient.

Hypothesis discovery_stateless :
  forall h1 h2,
    getBaseUrl (discoveryApi this) h1 "proxy"
    = getBaseUrl (discoveryApi this) h2 "proxy".
Hypothesis fetch_stateless : forall h1 h2 url, fetch h1 url = fetch h2 url.

Lemma callApi_stateless {T : Type} {json_T : Json T} path query h1 h2 :
  result (callApi fetch this (T := T) path query h1)
  = result (callApi fetch this (T := T) path query h2).
Proof.
  rewrite !callApi_cases, (discovery_stateless h1 h2).
  destruct (getBaseUrl (discoveryApi this) h2 "proxy"); [|reflexivity].
  cbn zeta. unfold result. cbn [fst].
  rewrite (fetch_stateless (h1 ++ [Discover "proxy"])
                           (h2 ++ [Discover "proxy"])).
  reflexivity.
Qed.

Lemma annotation_is_project_name projectObj (l : list object) :
  Forall (fun element => get element "project_name" = opt_get projectObj "name")
         (List.map (fun element =>
                      set element "project_name" (opt_get projectObj "name")) l).
Proof.
  induction l as [|element l IH]; constructor; [apply get_set_eq|exact IH].
Qed.

(** X12. [getPipelineSummary], [getIssuesSummary] and [getProjectName] each
    fetch the project on their own.  When the discovery service and the
    network answer a request the same way whenever it is made, the
    [project_name] found on every element of a returned list is the value
    [getProjectName] returns for the same project. *)
Theorem project_name_agrees projectID projectId h h0 :
  (forall l h',
      getPipelineSummary fetch this projectID h
      = (Fulfilled {| getPipelinesData := Some l |}, h') ->
      exists v,
        result (getProjectName fetch this projectID h0) = Fulfilled v
        /\ Forall (fun element => get element "project_name" = v) l)
  /\ (forall l h',
         getIssuesSummary fetch this projectId h
         = (Fulfilled {| getIssuesData := Some l |}, h') ->
         exists v,
           result (getProjectName fetch this (Some projectId) h0) = Fulfilled v
           /\ Forall (fun element => get element "project_name" = v) l).
Proof.
  split; intros l h' Heq.
  - unfold getPipelineSummary, bind, ret in Heq.
    destruct (callApi fetch this (T := list object) _ _ h) as [[r|e] h1];
      [|discriminate].
    destruct (callApi fetch this (T := object) _ _ h1) as [[projectObj|e] h2]
      eqn:Hproject; [|discriminate].
    destruct r as [r|]; [|discriminate]. cbn in Heq. injection Heq as <- _.
    exists (opt_get projectObj "name"). split.
    + unfold getProjectName, bind, ret, result.
      pose proof (callApi_stateless (T := object)
                    ("projects/" +:+ str projectID) [] h0 h1) as Hsame.
      unfold result in Hsame. rewrite Hproject in Hsame. cbn [fst] in Hsame.
      destruct (callApi fetch this _ _ h0) as [o h3]. cbn [fst] in Hsame.
      subst o. reflexivity.
    + apply annotation_is_project_name.
  - unfold getIssuesSummary, bind, ret in Heq.
    destruct (callApi fetch this (T := list object) _ _ h) as [[r|e] h1];
      [|discriminate].
    destruct (callApi fetch this (T := object) _ _ h1) as [[projectObj|e] h2]
      eqn:Hproject; [|discriminate].
    destruct r as [r|]; [|discriminate]. cbn in Heq. injection Heq as <- _.
    exists (opt_get projectObj "name"). split.
    + unfold getProjectName, bind, ret, result.
      pose proof (callApi_stateless (T := object)
                    ("projects/" +:+ projectId) [] h0 h1) as Hsame.
      unfold result in Hsame. rewrite Hproject in Hsame. cbn [fst] in Hsame.
      cbn [str].
      destruct (callApi fetch this _ _ h0) as [o h3]. cbn [fst] in Hsame.
      subst o. reflexivity.
    + apply annotation_is_project_name.
Qed.

End ProjectName.

(** ** The constructor *)

Lemma or_else_twice x d : d <> "" -> or_else (Some (or_else x d)) d = or_else x d.
Proof.
  intros Hd. destruct x as [[|c s]|]; cbn; try reflexivity;
    destruct d; congruence.
Qed.

Lemma or_else_not_empty x d : d <> "" -> or_else x d <> "".
Proof. intros Hd. destruct x as [[|c s]|]; cbn; congruence. Qed.

(** X13. A constructed client never has an empty proxy path or an empty
    code owners path (an empty one given is replaced by the default, any
    other is kept as given), and its fields are already in the form the
    constructor gives them: constructing a client again from the fields of a
    constructed one changes nothing. *)
Theorem constructor_idempotent d b pp cop :
  let this := constructor d b pp cop in
  proxyPath this <> ""
  /\ codeOwnersPath this <> ""
  /\ (forall given, pp = Some given -> given <> "" -> proxyPath this = given)
  /\ (forall given,
         cop = Some given -> given <> "" -> codeOwnersPath this = given)
  /\ constructor d (Some (baseUrl this)) (Some (proxyPath this))
                 (Some (codeOwnersPath this)) = this.
Proof.
  cbn zeta. split; [|split; [|split; [|split]]].
  - apply or_else_not_empty. discriminate.
  - apply or_else_not_empty. discriminate.
  - intros given -> Hgiven. cbn. destruct given; congruence.
  - intros given -> Hgiven. cbn. destruct given; congruence.
  - pose proof (constructor_baseUrl_slash d b pp cop) as Hslash.
    unfold constructor at 1. cbn [default from_option id].
    rewrite Hslash.
    cbn [proxyPath codeOwnersPath constructor].
    rewrite !or_else_twice by discriminate. reflexivity.
Qed.

(** * Further examples *)

Lemma discovery_failure_propagates_witness :
  getPipelineSummary fetch_project (json_objects := json_pipelines)
    (json_object := json_project)
    (constructor stub_discovery_down None None None) (Some "7") []
  = (Rejected (Rejection "Error: no proxy"), [Discover "proxy"]).
Proof.
  exact (proj1 (discovery_failure_propagates
                  fetch_project (json_objects := json_pipelines)
                  (json_object := json_project) (json_contributors := json_bob)
                  (json_string := stub_json [])
                  (constructor stub_discovery_down None None None)
                  stub_parseCodeOwners [] "Error: no proxy" eq_refl)
               (Some "7")).
Defined.

Lemma transport_failure_propagates_witness :
  exists url,
    getUserDetail fetch_down (json_objects := json_no_user) stub_client
                  "@alice" []
    = (Rejected (Rejection "TypeError: Failed to fetch"),
       [Discover "proxy"; Fetch url]).
Proof.
  destruct (transport_failure_propagates
              fetch_down (json_objects := json_no_user)
              (json_object := json_project) (json_contributors := json_bob)
              (json_string := stub_json []) stub_client stub_parseCodeOwners
              [] "http://localhost:7007/api/proxy"
              "TypeError: Failed to fetch" eq_refl (fun _ => eq_refl))
    as (_ & _ & _ & _ & _ & _ & _ & _ & _ & _ & Huser).
  exact (Huser "@alice").
Defined.

Lemma non_200_gives_absent_data_witness :
  result (getContributorsSummary (stub_fetch [])
            (json_contributors := json_bob) stub_client (Some "7") [])
  = Fulfilled {| getContributorsData := None |}
  /\ result (getUserDetail (stub_fetch []) (json_objects := json_no_user)
               stub_client "@alice" [])
     = Rejected (Error "user alice does not exist").
Proof.
  assert (Hdiscovered :
            forall h, exists base,
              getBaseUrl (discoveryApi stub_client) h "proxy" = Resolved base).
  { intros h. exists "http://localhost:7007/api/proxy". reflexivity. }
  assert (Hno_200 :
            forall h url, exists response,
              stub_fetch [] h url = Resolved response
              /\ status response <> 200).
  { intros h url. exists {| status := 404; body := "" |}.
    split; [reflexivity | simpl; lia]. }
  destruct (non_200_gives_absent_data
              (stub_fetch []) (json_objects := json_no_user)
              (json_object := json_project) (json_contributors := json_bob)
              (json_string := stub_json []) stub_client stub_parseCodeOwners
              Hdiscovered Hno_200 [])
    as (_ & _ & _ & _ & _ & Hcontributors & _ & _ & _ & _ & Huser).
  split; [exact (Hcontributors (Some "7")) | exact (Huser "@alice")].
Defined.

Lemma enrichment_requests_witness :
  issued [] (getUserProfilesData fetch_ann_unknown
               (json_contributors := json_bob) stub_client (Some [ann; bob]) [])
  = [Discover "proxy"; Fetch (users_search "ann%40example.org");
     Discover "proxy"; Fetch (users_search "bob%40example.org")].
Proof.
  apply (enrichment_requests
           fetch_ann_unknown (json_contributors := json_bob) stub_client
           "http://localhost:7007/api/proxy" [ann; bob] []
           (Some [ann;
                  set_avatar_url bob
                    (Some "https://gitlab.example.org/bob.png")])
           [Discover "proxy"; Fetch (users_search "ann%40example.org");
            Discover "proxy"; Fetch (users_search "bob%40example.org")]).
  - intros hi. reflexivity.
  - vm_compute. reflexivity.
Defined.

Lemma enrichment_changes_avatar_only_witness :
  length [ann; set_avatar_url bob (Some "https://gitlab.example.org/bob.png")]
  = length [ann; bob]
  /\ Forall2 (fun c c' => c' = set_avatar_url c (avatar_url c'))
             [ann; bob]
             [ann;
              set_avatar_url bob (Some "https://gitlab.example.org/bob.png")].
Proof.
  apply (enrichment_changes_avatar_only
           fetch_ann_unknown (json_contributors := json_bob) stub_client
           [ann; bob] []
           [ann;
            set_avatar_url bob (Some "https://gitlab.example.org/bob.png")]
           [Discover "proxy"; Fetch (users_search "ann%40example.org");
            Discover "proxy"; Fetch (users_search "bob%40example.org")]).
  vm_compute. reflexivity.
Defined.

Lemma enrichment_pointwise_witness :
  result (getUserProfilesData fetch_ann_unknown
            (json_contributors := json_bob) stub_client (Some [ann; bob]) [])
  = Fulfilled
      (Some (List.map (fun c => enriched c (answer_bob_only (email c)))
                      [ann; bob])).
Proof.
  apply (enrichment_pointwise
           fetch_ann_unknown (json_contributors := json_bob) stub_client
           answer_bob_only [ann; bob] []).
  intros c hi [<- | [<- | []]]; reflexivity.
Defined.

Lemma enrichment_idempotent_witness :
  exists cs',
    result (getUserProfilesData fetch_ann_unknown
              (json_contributors := json_bob) stub_client (Some [ann; bob]) [])
    = Fulfilled (Some cs')
    /\ result (getUserProfilesData fetch_ann_unknown
                 (json_contributors := json_bob) stub_client (Some cs')
                 [Discover "proxy"])
       = Fulfilled (Some cs').
Proof.
  apply (enrichment_idempotent
           fetch_ann_unknown (json_contributors := json_bob) stub_client
           answer_bob_only [ann; bob] [] [Discover "proxy"]).
  intros c hi [<- | [<- | []]]; reflexivity.
Defined.

Lemma getContributorsSummary_without_list_witness :
  getContributorsSummary (stub_fetch []) (json_contributors := json_bob)
                         stub_client (Some "7") []
  = (Fulfilled {| getContributorsData := None |},
     [Discover "proxy";
      Fetch "http://localhost:7007/api/proxy/gitlabci/projects/7/repository/contributors?sort=desc"]).
Proof.
  apply (getContributorsSummary_without_list
           (stub_fetch []) (json_contributors := json_bob) stub_client
           (Some "7") [] "http://localhost:7007/api/proxy"
           {| status := 404; body := "" |}).
  - reflexivity.
  - reflexivity.
  - simpl. lia.
Defined.

Lemma getProjectDetails_slug_segment_witness :
  exists segment,
    issued [] (getProjectDetails (stub_fetch []) (json_object := json_project)
                                 stub_client (Some "group/my project") [])
    = [Discover "proxy";
       Fetch (request_url "http://localhost:7007/api/proxy" "/gitlabci"
                          ("projects/" +:+ segment) [])]
    /\ char_in "/" segment = false
    /\ char_in "?" segment = false
    /\ char_in "#" segment = false
    /\ percent_decode segment = "group/my project".
Proof.
  apply (getProjectDetails_slug_segment
           (stub_fetch []) (json_object := json_project) stub_client
           (Some "group/my project") []
           "http://localhost:7007/api/proxy").
  reflexivity.
Defined.

Lemma getCodeOwners_path_sent_witness :
  exists sent,
    issued [] (getCodeOwners (stub_fetch []) (json_string := stub_json [])
                 stub_client stub_parseCodeOwners (Some "7") (Some "main")
                 (Some "./docs/CODE OWNERS") [])
    = [Discover "proxy";
       Fetch (request_url "http://localhost:7007/api/proxy" "/gitlabci"
                ("projects/" +:+ "7" +:+ "/repository/files/" +:+ sent
                   +:+ "/raw")
                [("ref", VStr "main")])]
    /\ percent_decode sent = "docs/CODE OWNERS"
    /\ (forall sep,
           sep = "/"%char \/ sep = "?"%char \/ sep = "#"%char ->
           char_in sep sent = char_in sep "docs/CODE OWNERS").
Proof.
  apply (getCodeOwners_path_sent
           (stub_fetch []) (json_string := stub_json []) stub_client
           stub_parseCodeOwners (Some "7") (Some "main")
           "./docs/CODE OWNERS" [] "http://localhost:7007/api/proxy").
  reflexivity.
Defined.

Lemma toString_injective_witness :
  URLSearchParams [("search", VStr "a&b=c")]
  = URLSearchParams [("search", VStr ("a&b" +:+ "=c"))].
Proof.
  apply (toString_injective
           (URLSearchParams [("search", VStr "a&b=c")])
           (URLSearchParams [("search", VStr ("a&b" +:+ "=c"))])).
  reflexivity.
Defined.

Lemma project_name_agrees_witness :
  exists v,
    result (getProjectName fetch_project (json_object := json_project)
                           stub_client (Some "7") [Discover "proxy"])
    = Fulfilled v
    /\ Forall (fun element => get element "project_name" = v)
              [set a_pipeline "project_name" (VStr "demo")].
Proof.
  assert (Hagree :=
            project_name_agrees
              fetch_project (json_objects := json_pipelines)
              (json_object := json_project) stub_client
              (fun _ _ => eq_refl) (fun _ _ _ => eq_refl)
              (Some "7") "7" [] [Discover "proxy"]).
  apply (proj1 Hagree [set a_pipeline "project_name" (VStr "demo")]
               [Discover "proxy";
                Fetch "http://localhost:7007/api/proxy/gitlabci/projects/7/pipelines?";
                Discover "proxy";
                Fetch "http://localhost:7007/api/proxy/gitlabci/projects/7?"]).
  vm_compute. reflexivity.
Defined.

Lemma constructor_idempotent_witness :
  constructor stub_discovery (Some "https://gitlab.example.org/")
              (Some "/gitlab") (Some "docs/CODEOWNERS")
  = constructor stub_discovery (Some "https://gitlab.example.org")
                (Some "/gitlab") (Some "docs/CODEOWNERS").
Proof.
  exact (proj2 (proj2 (proj2 (proj2
           (constructor_idempotent
              stub_discovery (Some "https://gitlab.example.org")
              (Some "/gitlab") (Some "docs/CODEOWNERS")))))).
Defined.

Lemma getCodeOwners_unreadable_body_witness :
  result (getCodeOwners fetch_owners_text (json_string := stub_json [])
                        stub_client stub_parseCodeOwners (Some "7") None None
                        [])
  = Rejected (Rejection "SyntaxError: Unexpected token").
Proof.
  apply (getCodeOwners_unreadable_body
           fetch_owners_text (json_string := stub_json []) stub_client
           stub_parseCodeOwners (Some "7") None None []
           "http://localhost:7007/api/proxy").
  - reflexivity.
  - intros url [Hurl | [Hurl | []]]; [discriminate Hurl|].
    injection Hurl as <-. exists {| status := 200; body := "* @ann" |}.
    repeat split; vm_compute; reflexivity.
Defined.
